(** * esip-summer-2021-geospatial-ml: the notebooks' helper functions and
      the deployment configuration

    The repository holds two notebooks and a [deploy] directory.  The
    segmentation notebook defines [find_match] and [get_item]; the Helm
    values file carries the Python function [option_handler] for the Dask
    gateway; the Makefile and the values file are configuration.

    Conventions of the embedding:
    - a Python [float] that the code computes with is a rational ([Q]);
      rounding to binary is left out, every comparison and every
      [ZeroDivisionError] is kept;
    - an element of a [float32] raster is a [f32]: a rational, an infinity
      or NaN (the stack's fill value for pixels without data);
    - a Python exception is a constructor of [exn], and fallible code runs
      in the monad [result];
    - a Python [dict] with string keys is a [gmap string _]. *)

From Stdlib Require Import QArith Qround Qminmax Lqa.
From stdpp Require Import gmap strings list fin_maps pretty.

Open Scope Q_scope.

(** ** Python exceptions and the error monad *)

Inductive exn : Type :=
| IndexError
| ZeroDivisionError
| KeyError (key : string)
| ValueError (msg : string)
| AssertionError.

Inductive result (A : Type) : Type :=
| Ok (a : A)
| Raise (e : exn).
Arguments Ok {A} a.
Arguments Raise {A} e.

#[global] Instance result_ret : MRet result := λ A a, Ok a.
#[global] Instance result_bind : MBind result := λ A B f m,
  match m with
  | Ok a => f a
  | Raise e => Raise e
  end.

Definition returns {A} (m : result A) : Prop := ∃ a, m = Ok a.

(** ** Python numbers *)

Module Py.

Definition Qltb (x y : Q) : bool := negb (Qle_bool y x).

(** [a / b] on floats. *)
Definition truediv (a b : Q) : result Q :=
  if Qeq_bool b 0 then Raise ZeroDivisionError else Ok (a / b).

(** [min(a, b)]: the second argument wins only when it is smaller. *)
Definition min (a b : Q) : Q := if Qltb b a then b else a.

(** Rounding to the nearest integer, ties to the even one: what
    [round(x, 0)] and the ["%f"] conversion do. *)
Definition round_half_even (q : Q) : Z :=
  let f := Qfloor q in
  match Qcompare (q - inject_Z f) (1 # 2) with
  | Lt => f
  | Gt => (f + 1)%Z
  | Eq => if Z.even f then f else (f + 1)%Z
  end.

(** [round(x, 0)]: a float again. *)
Definition round0 (x : Q) : Q := inject_Z (round_half_even x).

(** [l[0]]. *)
Definition index0 {A} (l : list A) : result A :=
  match l with
  | [] => Raise IndexError
  | x :: _ => Ok x
  end.

(** [d[k]] on a dict. *)
Definition getitem {V} (d : gmap string V) (k : string) : result V :=
  match d !! k with
  | Some v => Ok v
  | None => Raise (KeyError k)
  end.

(** [[x for x in l if p(x)]] where [p] may raise: the items are tried
    from left to right and the first exception ends the comprehension. *)
Fixpoint comprehension_if {A} (p : A → result bool) (l : list A)
  : result (list A) :=
  match l with
  | [] => Ok []
  | x :: l' =>
      b ← p x;
      r ← comprehension_if p l';
      mret (if b : bool then x :: r else r)
  end.

(** [sorted(l, key=key)]: a stable sort that compares keys with [<]. *)
Fixpoint insert_by {A} (key : A → Q) (x : A) (l : list A) : list A :=
  match l with
  | [] => [x]
  | y :: l' => if Qltb (key y) (key x) then y :: insert_by key x l'
               else x :: y :: l'
  end.

Definition sorted {A} (key : A → Q) (l : list A) : list A :=
  foldr (insert_by key) [] l.

(** The millionths in ["%f" % x]: six digits are kept after the point and
    the last one is rounded. *)
Definition micro (x : Q) : Z := round_half_even (x * 1000000).

Definition pad6 (s : string) : string :=
  String.concat EmptyString (replicate (6 - String.length s) "0") +:+ s.

(** ["%f" % x]: the sign, the digits before the point, and six after it. *)
Definition percent_f (x : Q) : string :=
  let m := micro x in
  (if Qltb x 0 then "-" else EmptyString)
  +:+ pretty (Z.abs m / 1000000)%Z +:+ "."
  +:+ pad6 (pretty (Z.abs m mod 1000000)%Z).

(** [needle in s] on strings. *)
Fixpoint contains (needle s : string) : bool :=
  if String.prefix needle s then true
  else match s with
       | EmptyString => false
       | String _ s' => contains needle s'
       end.

End Py.

(** ** Rasters

    [xarray.DataArray] as the notebook uses it: a shape, a dtype, the
    elements in row-major order, the [x] and [y] coordinate labels, and the
    georeferencing that [.rio.bounds()] and [.rio.crs.to_epsg()] read. *)

Inductive f32 : Type :=
| Fin (q : Q)
| PInf
| NInf
| NaN.

Record DataArray (A : Type) : Type := mkDataArray {
  shape : list nat;
  dtype : string;
  data : list A;
  x : list Q;
  y : list Q;
  rio_bounds : Q * Q * Q * Q;
  rio_epsg : Z;
}.
Arguments mkDataArray {A}.
Arguments shape {A}.
Arguments dtype {A}.
Arguments data {A}.
Arguments x {A}.
Arguments y {A}.
Arguments rio_bounds {A}.
Arguments rio_epsg {A}.

Module Xr.

(** [.squeeze()]: axes of length one are dropped. *)
Definition squeeze {A} (a : DataArray A) : DataArray A :=
  mkDataArray (filter (λ n, n ≠ 1%nat) (shape a)) (dtype a) (data a)
              (x a) (y a) (rio_bounds a) (rio_epsg a).

(** [.assign_coords(x=..., y=...)]. *)
Definition assign_coords {A} (a : DataArray A) (x' y' : list Q)
  : DataArray A :=
  mkDataArray (shape a) (dtype a) (data a) x' y' (rio_bounds a) (rio_epsg a).

Definition map_data {A B} (f : A → B) (dt : string) (a : DataArray A)
  : DataArray B :=
  mkDataArray (shape a) dt (f <$> data a) (x a) (y a)
              (rio_bounds a) (rio_epsg a).

(** One element of [data /= d], for a positive scalar [d]. *)
Definition div_scalar (d : Q) (v : f32) : f32 :=
  match v with
  | Fin q => Fin (q / d)
  | PInf => PInf
  | NInf => NInf
  | NaN => NaN
  end.

(** One element of [np.clip(data, lo, hi)]: [minimum(maximum(v, lo), hi)],
    and both propagate NaN. *)
Definition clip_elem (lo hi : Q) (v : f32) : f32 :=
  match v with
  | Fin q => Fin (Qmin (Qmax q lo) hi)
  | PInf => Fin hi
  | NInf => Fin (Qmin lo hi)
  | NaN => NaN
  end.

Definition idiv (a : DataArray f32) (d : Q) : DataArray f32 :=
  map_data (div_scalar d) (dtype a) a.

Definition clip (a : DataArray f32) (lo hi : Q) : DataArray f32 :=
  map_data (clip_elem lo hi) (dtype a) a.

(** One element of [.astype("int64")] on an integer raster: the value
    modulo [2^64], read as a signed number. *)
Definition wrap_int64 (z : Z) : Z :=
  ((z + 2 ^ 63) mod 2 ^ 64 - 2 ^ 63)%Z.

Definition astype_int64 (a : DataArray Z) : DataArray Z :=
  map_data wrap_int64 "int64" a.

End Xr.

(** ** The segmentation notebook: [find_match] and [get_item] *)

(** What the notebook reads from the libraries' objects without leaving the
    process: [shapely.geometry.shape(item.geometry)], [.intersection],
    [.area], [EOExtension.ext(item).cloud_cover], and the hrefs of
    [item.assets]. *)
Class Stac (Item Shape : Type) : Type := {
  item_shape : Item → Shape;
  intersection : Shape → Shape → Shape;
  area : Shape → Q;
  cloud_cover : Item → Q;
  assets_href : Item → gmap string string;
}.

(** The live services the notebook calls: [rioxarray.open_rasterio] reads
    the label raster behind an href, [planetary_computer.sign] asks for a
    token, and [stackstac.stack(...).compute()] reads, reprojects and crops
    the Sentinel-2 assets. *)
Record Services (Item : Type) : Type := mkServices {
  open_rasterio : string → DataArray Z;
  sign : Item → Item;
  stack : Item → list string → string → Z → Q * Q * Q * Q → Z
          → DataArray f32;
}.
Arguments mkServices {Item}.
Arguments open_rasterio {Item}.
Arguments sign {Item}.
Arguments stack {Item}.

Section Segmentation.

Context {Item Shape : Type} `{!Stac Item Shape}.

(** The test of the comprehension in [find_match]. *)
Definition overlaps (label_shape : Shape) (item : Item) : result bool :=
  r ← Py.truediv (area (intersection (item_shape item) label_shape))
                 (area label_shape);
  mret (Py.Qltb 0.9 r).

(** [find_match]: the items that cover more than 0.9 of the label's shape,
    sorted by cloud cover; the first one is returned. *)
Definition find_match (label_item : Item) (sentinel_items : list Item)
  : result Item :=
  let label_shape := item_shape label_item in
  items2 ← Py.comprehension_if (overlaps label_shape) sentinel_items;
  Py.index0 (Py.sorted cloud_cover items2).

(** [tuple(round(x, 0) for x in labels.rio.bounds())]. *)
Definition round_bounds (b : Q * Q * Q * Q) : Q * Q * Q * Q :=
  let '(x0, y0, x1, y1) := b in
  (Py.round0 x0, Py.round0 y0, Py.round0 x1, Py.round0 y1).

(** [get_item]: the label raster is read, the best scene is chosen, its
    assets are stacked on the label's grid, and the stack is checked against
    the label's shape, given the label's coordinates, divided by 4000 and
    clipped to [[0, 1]].  [assets = list(assets)] copies the names and
    changes nothing here. *)
Definition get_item (w : Services Item) (label_item : Item)
    (sentinel_items : list Item) (assets : list string)
  : result (DataArray f32 * DataArray Z) :=
  href ← Py.getitem (assets_href label_item) "labels";
  let labels := Xr.squeeze (open_rasterio w href) in
  sentinel_item ← find_match label_item sentinel_items;
  let bounds := round_bounds (rio_bounds labels) in
  let data :=
    Xr.squeeze (stack w (sign w sentinel_item) assets "float32" 10
                      bounds (rio_epsg labels)) in
  if decide (tail (shape data) = shape labels) then
    let data := Xr.assign_coords data (x labels) (y labels) in
    let data := Xr.idiv data 4000 in
    let data := Xr.clip data 0 1 in
    Ok (data, Xr.astype_int64 labels)
  else Raise AssertionError.

(** The share of the label's area that an item covers. *)
Definition coverage (label_item item : Item) : Q :=
  area (intersection (item_shape item) (item_shape label_item))
  / area (item_shape label_item).

Definition qualifies (label_item item : Item) : Prop :=
  0.9 < coverage label_item item.

End Segmentation.

(** ** The Dask gateway's option handler ([deploy/config.yaml],
       [dask-gateway.gateway.extraConfig.01-optionHandler]) *)

Module Gateway.

(** The [options] object the gateway passes to the handler. *)
Record Options : Type := mkOptions {
  worker_cores : Q;
  worker_memory : Q;
  image : string;
  environment : gmap string string;
}.

(** The values of the dict the handler returns. *)
Inductive value : Type :=
| VFloat (q : Q)
| VStr (s : string)
| VDict (d : gmap string string).

(** [option_handler]: an image without a tag is refused; the requests are
    fractions of the limits, and the limits are what was asked for. *)
Definition option_handler (options : Options) : result (gmap string value) :=
  if negb (Py.contains ":" (image options)) then
    Raise (ValueError "When specifying an image you must also provide a tag")
  else
    Ok (<["worker_cores" := VFloat (0.88 * Py.min (worker_cores options / 2) 1)]>
       (<["worker_cores_limit" := VFloat (worker_cores options)]>
       (<["worker_memory" :=
            VStr (Py.percent_f (0.95 * worker_memory options) +:+ "G")]>
       (<["worker_memory_limit" :=
            VStr (Py.percent_f (worker_memory options) +:+ "G")]>
       (<["image" := VStr (image options)]>
       (<["environment" := VDict (environment options)]> ∅)))))).

(** The fields that [cluster_options] declares. *)
Inductive field : Type :=
| Float (name : string) (default min max : Q)
| String (name default : string)
| Mapping (name : string).

Definition cluster_options (user : string)
  : list field * (Options → result (gmap string value)) :=
  ([ Float "worker_cores" 1 1 16;
     Float "worker_memory" 2 1 32;
     String "image" "pangeo/pangeo-notebook:latest";
     Mapping "environment" ],
   option_handler).

End Gateway.

(** ** What the claims say, as predicates *)

Section SegmentationSpecs.

Context {Item Shape : Type} `{!Stac Item Shape}.


(** An element of the returned imagery lies in [[0, 1]]. *)
Definition in_unit_interval (v : f32) : Prop :=
  ∃ q, v = Fin q ∧ 0 <= q <= 1.

(** What [get_item] returned for the label chip [labels]: the elements of
    the imagery are [inside], the imagery has the chip's shape after its
    first axis, and the labels have the chip's shape and dtype int64. *)
Definition get_item_spec (inside : f32 → Prop)
    (out : DataArray f32 * DataArray Z) (labels : DataArray Z) : Prop :=
  Forall inside (data out.1)
  ∧ tail (shape out.1) = shape labels
  ∧ shape out.2 = shape labels
  ∧ dtype out.2 = "int64"%string.

End SegmentationSpecs.

(** ** Concrete inputs: footprints as axis-aligned rectangles *)

Module Rect.

Record rect : Type := mkRect { x0 : Q; y0 : Q; x1 : Q; y1 : Q }.

Definition rect_area (r : rect) : Q :=
  Qmax 0 (x1 r - x0 r) * Qmax 0 (y1 r - y0 r).

Definition rect_intersection (a b : rect) : rect :=
  mkRect (Qmax (x0 a) (x0 b)) (Qmax (y0 a) (y0 b))
         (Qmin (x1 a) (x1 b)) (Qmin (y1 a) (y1 b)).

Record item : Type := mkItem {
  id : string;
  geometry : rect;
  eo_cloud_cover : Q;
  assets : gmap string string;
}.

#[global] Instance rect_stac : Stac item rect := {|
  item_shape := geometry;
  intersection := rect_intersection;
  area := rect_area;
  cloud_cover := eo_cloud_cover;
  assets_href := assets;
|}.

(** A label chip of 2560 m by 2560 m, and one whose polygon has collapsed
    to a point. *)
Definition chip : item :=
  mkItem "chip" (mkRect 0 0 2560 2560) 0 {["labels" := "chip/labels.tif"]}.
Definition point_chip : item :=
  mkItem "point" (mkRect 5 5 5 5) 0 {["labels" := "point/labels.tif"]}.

(** Three scenes: a clear one that covers half of [chip], and a cloudy
    and a hazy one that cover all of it. *)
Definition half_clear : item :=
  mkItem "half_clear" (mkRect 1280 (-100) 9000 9000) 1 ∅.
Definition full_cloudy : item :=
  mkItem "full_cloudy" (mkRect (-100) (-100) 9000 9000) 60 ∅.
Definition full_hazy : item :=
  mkItem "full_hazy" (mkRect (-50) (-50) 9000 9000) 12 ∅.

End Rect.

Section GatewaySpecs.

Import Gateway.


End GatewaySpecs.

(** ** Concrete services

    A world in which the label raster behind any href is a 2 by 2 chip with
    one band, and the stack of a scene is three bands of 2 by 2 pixels; the
    last pixel of each band has no data, as when the scene ends inside the
    chip. *)

Module World.

Definition label_raster : DataArray Z :=
  mkDataArray [1; 2; 2]%nat "uint8" [0; 3; 3; 7]%Z
              [5; 15] [15; 5] (0.4, 0, 20, 19.5) 32734.

Definition scene_stack (fill : f32) : DataArray f32 :=
  mkDataArray [1; 3; 2; 2]%nat "float32"
              [Fin 800; Fin 4400; Fin (-12); fill;
               Fin 1200; Fin 3999; Fin 0; fill;
               Fin 2000; Fin 9000; Fin 4000; fill]
              [0; 10] [20; 10] (0, 0, 20, 20) 32734.

(** Pixels without data come back as NaN, the stack's fill value. *)
Definition live : Services Rect.item :=
  mkServices (λ _, label_raster) (λ item, item)
             (λ _ _ _ _ _ _, scene_stack NaN).

(** The same catalog on a day when the scene has data everywhere. *)
Definition full : Services Rect.item :=
  mkServices (λ _, label_raster) (λ item, item)
             (λ _ _ _ _ _ _, scene_stack (Fin 100)).

(** A service that answers with a raster of another size. *)
Definition misaligned : Services Rect.item :=
  mkServices (λ _, label_raster) (λ item, item)
             (λ _ _ _ _ _ _,
                mkDataArray [1; 3; 2; 3]%nat "float32" [] [] []
                            (0, 0, 30, 20) 32734).

End World.

(** ** The claims about the repository as a whole, as predicates *)








(** The label chip next to [Rect.chip], for runs over several items, and
    what [get_item] returns for either chip while the services answer as
    [World.live]. *)
Definition chip_east : Rect.item :=
  Rect.mkItem "chip_east" (Rect.mkRect 2560 0 5120 2560) 0
              {["labels" := "chip_east/labels.tif"]}.

Definition live_pair : DataArray f32 * DataArray Z :=
  (Xr.clip (Xr.idiv (Xr.assign_coords (Xr.squeeze (World.scene_stack NaN))
                                      [5; 15] [15; 5]) 4000) 0 1,
   Xr.astype_int64 (Xr.squeeze World.label_raster)).

(** ** Loading the scenes in parallel

    The notebook wraps [get_item] in [dask.delayed], calls the wrapper once
    per label item, and hands the delayed calls to [dask.persist] and
    [dask.compute].  The cluster is modelled as a step relation: at each step
    any task that has not finished runs and its future is filled; the order
    is the scheduler's.  A task is a call of a function of its argument. *)

Module Dask.

Section Scheduler.

Context {A R : Type}.

(** [dask.delayed(f)(a)]: a call that has not run yet. *)
Record Delayed : Type := mkDelayed { func : A → result R; arg : A }.

Definition delayed (f : A → result R) (a : A) : Delayed := mkDelayed f a.

Definition run_task (d : Delayed) : result R := func d (arg d).

(** The futures filled so far, by the position of their task. *)
Inductive step (tasks : list Delayed)
  : gmap nat (result R) → gmap nat (result R) → Prop :=
| step_finish i d futures :
    tasks !! i = Some d →
    futures !! i = None →
    step tasks futures (<[i := run_task d]> futures).

(** [dask.persist] on the tasks starts the run. *)
Definition persisted (tasks : list Delayed) (futures : gmap nat (result R))
  : Prop :=
  rtc (step tasks) ∅ futures.

Definition finished (tasks : list Delayed) (futures : gmap nat (result R))
  : Prop :=
  ∀ i, (i < length tasks)%nat → is_Some (futures !! i).

(** [dask.compute] on them waits for every future, then hands back the
    results in the order of the tasks, or raises the error of a task
    that failed. *)
Inductive compute (tasks : list Delayed) (futures : gmap nat (result R))
  : result (list R) → Prop :=
| compute_ok values :
    length values = length tasks →
    (∀ i v, values !! i = Some v → futures !! i = Some (Ok v)) →
    compute tasks futures (Ok values)
| compute_raise i e :
    finished tasks futures →
    (i < length tasks)%nat →
    futures !! i = Some (Raise e) →
    compute tasks futures (Raise e).

(** A run in a given order of completion; positions that name no task
    or a finished one are skipped. *)
Fixpoint exec (tasks : list Delayed) (order : list nat)
    (futures : gmap nat (result R)) : gmap nat (result R) :=
  match order with
  | [] => futures
  | i :: order' =>
      match tasks !! i, futures !! i with
      | Some d, None => exec tasks order' (<[i := run_task d]> futures)
      | _, _ => exec tasks order' futures
      end
  end.

(** [[f(a) for a in l]]: one call after the other, until one raises. *)
Fixpoint comprehension (f : A → result R) (l : list A) : result (list R) :=
  match l with
  | [] => Ok []
  | a :: l' =>
      r ← f a;
      rs ← comprehension f l';
      mret (r :: rs)
  end.

End Scheduler.

End Dask.

Section LoadScenes.

Context {Item Shape : Type} `{!Stac Item Shape}.

(** [Xys = [get_item_(label_item, sentinel_items, assets)
            for label_item in label_items]]
    with [get_item_ = dask.delayed(get_item, nout=2)]. *)
Definition load_scenes_delayed (w : Services Item) (label_items : list Item)
    (sentinel_items : list Item) (assets : list string)
  : list (@Dask.Delayed Item (DataArray f32 * DataArray Z)) :=
  (λ label_item,
     Dask.delayed (λ label_item, get_item w label_item sentinel_items assets)
                  label_item) <$> label_items.

(** The same loop without Dask. *)
Definition load_scenes_sequential (w : Services Item)
    (label_items : list Item) (sentinel_items : list Item)
    (assets : list string)
  : result (list (DataArray f32 * DataArray Z)) :=
  Dask.comprehension
    (λ label_item, get_item w label_item sentinel_items assets) label_items.

End LoadScenes.

(** ** The notebooks

    A notebook is its list of cells; a code cell is the list of its
    statements in the abstract syntax below.  Constants (numbers, strings,
    [...]) are [ELit]; operators and displays keep their operands only; a
    call keeps its positional arguments followed by the values of its
    keyword arguments.  A line that starts with [%] is an IPython magic.
    The syntax has the statements that the two notebooks use: neither has
    a [try], a [raise] or a [while]. *)

#[local] Set Warnings "-register-all,-postfix-notation-not-level-1".

Module Nb.

Inductive expr : Type :=
| EName (id : string)
| EAttr (value : expr) (attr : string)
| ECall (func : expr) (args : list expr)
| ESub (value index : expr)
| ELambda (params : list string) (body : expr)
| EComp (elt : expr) (targets : list string) (iter : expr)
        (conds : list expr)
| EOp (operands : list expr)
| ELit.

Inductive stmt : Type :=
| SImport (module bound : string)
| SFromImport (module : string) (names : list string)
| SAssign (targets : list expr) (value : expr)
| SAugAssign (target value : expr)
| SExpr (value : expr)
| SDef (name : string) (params : list string) (body : list stmt)
| SClass (name : string) (bases : list expr) (body : list stmt)
| SFor (targets : list string) (iter : expr) (body : list stmt)
| SIf (test : expr) (body orelse : list stmt)
| SWith (items : list expr) (body : list stmt)
| SAssert (test : expr)
| SReturn (value : expr)
| SMagic (line : string).

Inductive cell : Type :=
| Markdown
| Code (body : list stmt).

Declare Scope py_scope.
Delimit Scope py_scope with py.
Notation "$ x" := (EName x) (at level 1, x at level 0, format "$ x")
  : py_scope.
Notation "e ∙ a" := (EAttr e a)
  (at level 12, left associativity, format "e ∙ a") : py_scope.
Notation "f $$ args" := (ECall f args)
  (at level 12, left associativity) : py_scope.
Notation "e .[ i ]" := (ESub e i)
  (at level 12, left associativity, format "e .[ i ]") : py_scope.
Notation "t <~ v" := (SAssign (cons t nil) v)
  (at level 30, no associativity) : py_scope.

(** *** Names *)

Definition without (bound : list string) (names : list string)
  : list string :=
  List.filter (λ x, bool_decide (x ∉ bound)) names.

(** The names an expression reads from its surroundings. *)
Fixpoint free (e : expr) : list string :=
  match e with
  | EName x => [x]
  | EAttr v _ => free v
  | ECall f args => free f ++ flat_map free args
  | ESub v i => free v ++ free i
  | ELambda params body => without params (free body)
  | EComp elt targets iter conds =>
      free iter ++ without targets (free elt ++ flat_map free conds)
  | EOp operands => flat_map free operands
  | ELit => []
  end.

(** The names an assignment target binds, and those it reads. *)
Fixpoint target_binds (t : expr) : list string :=
  match t with
  | EName x => [x]
  | EOp elts => flat_map target_binds elts
  | _ => []
  end.

Fixpoint target_reads (t : expr) : list string :=
  match t with
  | EName _ => []
  | EOp elts => flat_map target_reads elts
  | _ => free t
  end.

(** The names a statement mentions, bodies included; the parameters of a
    function are its own. *)
Fixpoint mentions (s : stmt) : list string :=
  match s with
  | SImport _ _ | SFromImport _ _ | SMagic _ => []
  | SAssign targets value => flat_map target_reads targets ++ free value
  | SAugAssign target value => free target ++ free value
  | SExpr value | SAssert value | SReturn value => free value
  | SDef _ params body => without params (flat_map mentions body)
  | SClass _ bases body => flat_map free bases ++ flat_map mentions body
  | SFor targets iter body =>
      free iter ++ without targets (flat_map mentions body)
  | SIf test body orelse =>
      free test ++ flat_map mentions body ++ flat_map mentions orelse
  | SWith items body => flat_map free items ++ flat_map mentions body
  end.

(** *** Calls *)

(** The callee of a call as a path: [a.b[i].c] is [a; b; []; c]. *)
Fixpoint path (e : expr) : option (list string) :=
  match e with
  | EName x => Some [x]
  | EAttr v a => (λ p, p ++ [a]) <$> path v
  | ESub v _ => (λ p, p ++ ["[]"]) <$> path v
  | ECall f _ => (λ p, p ++ ["()"]) <$> path f
  | _ => None
  end.

(** The callees of the calls in an expression. *)
Fixpoint calls (e : expr) : list (option (list string)) :=
  match e with
  | EName _ | ELit => []
  | EAttr v _ => calls v
  | ECall f args => path f :: calls f ++ flat_map calls args
  | ESub v i => calls v ++ calls i
  | ELambda _ body => calls body
  | EComp elt _ iter conds => calls elt ++ calls iter ++ flat_map calls conds
  | EOp operands => flat_map calls operands
  end.

Fixpoint stmt_calls (s : stmt) : list (option (list string)) :=
  match s with
  | SImport _ _ | SFromImport _ _ | SMagic _ => []
  | SAssign targets value => flat_map calls targets ++ calls value
  | SAugAssign target value => calls target ++ calls value
  | SExpr value | SAssert value | SReturn value => calls value
  | SDef _ _ body => flat_map stmt_calls body
  | SClass _ bases body => flat_map calls bases ++ flat_map stmt_calls body
  | SFor _ iter body => calls iter ++ flat_map stmt_calls body
  | SIf test body orelse =>
      calls test ++ flat_map stmt_calls body ++ flat_map stmt_calls orelse
  | SWith items body => flat_map calls items ++ flat_map stmt_calls body
  end.

Definition cell_body (c : cell) : list stmt :=
  match c with
  | Markdown => []
  | Code body => body
  end.

Definition cell_calls (callee : list string) (c : cell) : bool :=
  bool_decide (Some callee ∈ flat_map stmt_calls (cell_body c)).

(** The position of the first cell that calls [callee]. *)
Fixpoint first_call_from (n : nat) (callee : list string) (nb : list cell)
  : option nat :=
  match nb with
  | [] => None
  | c :: nb' => if cell_calls callee c then Some n
                else first_call_from (S n) callee nb'
  end.

Definition first_call : list string → list cell → option nat :=
  first_call_from 0.

(** *** Running order *)

Definition all_bound (env names : list string) : bool :=
  forallb (λ x, bool_decide (x ∈ env)) names.

(** One top-level statement run with the names [env] bound: [None] when
    it reads a name that nothing has bound yet, and the names bound
    afterwards otherwise.  The body of a [def] or a [class] runs when it
    is called, so only its name is bound here; after an [if] the names
    that both branches bind are bound. *)
Fixpoint run_stmt (env : list string) (s : stmt) : option (list string) :=
  let run_block :=
    fix run_block (env : list string) (body : list stmt)
      : option (list string) :=
      match body with
      | [] => Some env
      | s' :: body' =>
          match run_stmt env s' with
          | Some env' => run_block env' body'
          | None => None
          end
      end in
  let guard (names : list string) (k : option (list string)) :=
    if all_bound env names then k else None in
  match s with
  | SImport _ bound => Some (bound :: env)
  | SFromImport _ names => Some (names ++ env)
  | SMagic _ => Some env
  | SAssign targets value =>
      guard (free value ++ flat_map target_reads targets)
            (Some (flat_map target_binds targets ++ env))
  | SAugAssign target value =>
      guard (free target ++ free value) (Some env)
  | SExpr value | SAssert value | SReturn value =>
      guard (free value) (Some env)
  | SDef name _ _ | SClass name _ _ => Some (name :: env)
  | SFor targets iter body =>
      guard (free iter) (run_block (targets ++ env) body)
  | SIf test body orelse =>
      guard (free test)
            (match run_block env body, run_block env orelse with
             | Some env1, Some env2 =>
                 Some (List.filter (λ x, bool_decide (x ∈ env2)) env1)
             | _, _ => None
             end)
  | SWith items body => guard (flat_map free items) (run_block env body)
  end.

Fixpoint run_block (env : list string) (body : list stmt)
  : option (list string) :=
  match body with
  | [] => Some env
  | s :: body' =>
      match run_stmt env s with
      | Some env' => run_block env' body'
      | None => None
      end
  end.

Definition builtins : list string :=
  ["len"; "list"; "sorted"; "print"; "set"; "next"; "range"; "tuple";
   "round"].

(** Run from the first cell to the last, every statement reads bound
    names only. *)
Definition runs_in_order (nb : list cell) : bool :=
  bool_decide (is_Some (run_block builtins (flat_map cell_body nb))).

(** *** The repository's own functions *)






(** The body of the function [name]. *)
Definition body_of (name : string) (nb : list cell) : list stmt :=
  flat_map (λ s, match s with
                 | SDef name' _ body =>
                     if bool_decide (name' = name) then body else []
                 | _ => []
                 end)
           (flat_map cell_body nb).

Open Scope py_scope.

Definition explore : list cell :=
  [ Markdown;
    Code
      [ SImport "pystac" "pystac";
        SImport "pystac_client" "pystac_client";
        SImport "requests" "requests";
        SImport "shapely.geometry" "shapely";
        SImport "warnings" "warnings";
        SExpr ($"warnings"∙"filterwarnings" $$ [ELit; ELit]) ];
    Markdown;
    Code
      [ $"training_catalog" <~ $"pystac"∙"read_file" $$ [ELit];
        SExpr $"training_catalog" ];
    Markdown;
    Code
      [ $"label_links" <~ $"training_catalog"∙"get_item_links" $$ [];
        SExpr ($"len" $$ [$"label_links"]) ];
    Markdown;
    Code
      [ $"label_item" <~
          $"label_links".[ELit]∙"resolve_stac_object" $$ []∙"target";
        SExpr $"label_item" ];
    Markdown;
    Code [];
    Code [SMagic "%load solutions/pystac_item_bbox.py"];
    Code [];
    Code [SMagic "%load solutions/pystac_item_date.py"];
    Code [];
    Code [SMagic "%load solutions/pystac_item_assets.py"];
    Markdown;
    Code
      [ SImport "rioxarray" "rioxarray";
        $"label_item" <~
          $"label_links".[ELit]∙"resolve_stac_object" $$ []∙"target";
        $"labels" <~
          $"rioxarray"∙"open_rasterio" $$
              [$"label_item"∙"assets".[ELit]∙"href"]
            ∙"squeeze" $$ [];
        SExpr $"labels" ];
    Markdown;
    Code
      [ SFromImport "pystac.extensions.label" ["LabelExtension"];
        $"ext" <~ $"LabelExtension"∙"ext" $$ [$"label_item"];
        $"r" <~ $"requests"∙"get" $$ [$"label_item"∙"assets".[ELit]∙"href"];
        $"classes" <~ $"list" $$ [$"r"∙"json" $$ []∙"values" $$ []] ];
    Markdown;
    Code
      [ SImport "matplotlib.pyplot" "plt";
        SImport "numpy" "np";
        EOp [$"fig"; $"ax"] <~ $"plt"∙"subplots" $$ [EOp [ELit; ELit]];
        $"p" <~
          $"labels"∙"plot"∙"imshow" $$
              [$"ax"; ELit; ELit; ELit; $"len" $$ [$"classes"]];
        $"cbar" <~ $"plt"∙"colorbar" $$ [$"p"];
        SExpr
          ($"cbar"∙"set_ticks" $$
              [ $"np"∙"arange" $$
                    [ELit; EOp [$"len" $$ [$"classes"]; ELit]] ]);
        SExpr ($"cbar"∙"set_ticklabels" $$ [$"classes"]) ];
    Markdown;
    Code
      [ $"stac_client" <~ $"pystac_client"∙"Client"∙"open" $$ [ELit];
        SExpr $"stac_client" ];
    Markdown;
    Code
      [ $"search" <~ $"stac_client"∙"search" $$ [ELit; ELit; ELit; ELit];
        $"items" <~ $"search"∙"get_all_items" $$ [] ];
    Code [SMagic "%load solutions/search.py"];
    Markdown;
    Code
      [ SFromImport "pystac.extensions.eo" ["EOExtension"];
        $"sentinel_item" <~
          $"sorted" $$
              [ $"items";
                ELambda ["item"]
                  ($"EOExtension"∙"ext" $$ [$"item"]∙"cloud_cover") ]
            .[ELit] ];
    Markdown;
    Code
      [ SFromImport "ipyleaflet" ["Map"; "TileLayer"; "GeoJSON"];
        $"center" <~
          $"shapely"∙"geometry"∙"shape" $$ [$"label_item"∙"geometry"]
            ∙"centroid"∙"bounds".[EOp [ELit]].[EOp [EOp [ELit]]];
        $"m" <~ $"Map" $$ [$"center"; ELit];
        $"layer" <~
          $"TileLayer" $$
              [ $"requests"∙"get" $$
                    [$"sentinel_item"∙"assets".[ELit]∙"href"]
                  ∙"json" $$ [].[ELit].[ELit] ];
        SExpr ($"m"∙"add_layer" $$ [$"layer"]);
        SExpr
          ($"m"∙"add_layer" $$ [$"GeoJSON" $$ [$"label_item"∙"geometry"]]);
        SExpr $"m" ];
    Markdown;
    Code
      [ SImport "planetary_computer" "planetary_computer";
        $"signed_item" <~
          $"planetary_computer"∙"sign" $$ [$"sentinel_item"] ];
    Markdown;
    Code
      [ SFromImport "pystac.extensions.projection" ["ProjectionExtension"];
        SExpr ($"print" $$ [ELit; $"labels"∙"rio"∙"crs"∙"to_epsg" $$ []]);
        SExpr
          ($"print" $$
              [ ELit;
                $"ProjectionExtension"∙"ext" $$ [$"sentinel_item"]
                  ∙"epsg" ]) ];
    Markdown;
    Code
      [ SImport "stackstac" "stackstac";
        $"assets" <~ EOp [ELit; ELit; ELit; ELit; ELit; ELit; ELit];
        $"data" <~
          $"stackstac"∙"stack" $$
              [ $"signed_item"∙"to_dict" $$ [];
                $"assets";
                $"labels"∙"rio"∙"crs"∙"to_epsg" $$ [];
                $"labels"∙"rio"∙"bounds" $$ [];
                ELit;
                ELit ]
            ∙"where" $$ [ELambda ["x"] (EOp [$"x"; ELit])]
            ∙"squeeze" $$ [];
        SAssert (EOp [$"data"∙"shape".[EOp [ELit]]; $"labels"∙"shape"]);
        $"data" <~ $"data"∙"compute" $$ [];
        SExpr $"data" ];
    Markdown;
    Code [SExpr ($"labels"∙"x")];
    Code [SExpr ($"data"∙"x")];
    Markdown;
    Code
      [ $"data2" <~
          $"data"∙"assign_coords" $$
              [ ELambda ["ds"] ((EOp [$"ds"∙"y"; ELit])∙"round" $$ []);
                ELambda ["ds"] ((EOp [$"ds"∙"x"; ELit])∙"round" $$ []) ] ];
    Markdown;
    Code
      [ SAssert
          ((EOp [$"data2"∙"x"∙"data"; $"labels"∙"x"∙"data"])∙"all" $$ []);
        SAssert
          ((EOp [$"data2"∙"y"∙"data"; $"labels"∙"y"∙"data"])∙"all" $$ []) ];
    Markdown;
    Code
      [ SImport "sklearn.neighbors" "sklearn";
        SImport "sklearn.model_selection" "sklearn" ];
    Markdown;
    Code
      [ $"X" <~ $"data2"∙"stack" $$ [EOp [ELit; ELit]]∙"T";
        SExpr ($"X"∙"shape") ];
    Markdown;
    Code
      [ $"y" <~ $"labels"∙"stack" $$ [EOp [ELit; ELit]];
        SExpr ($"y"∙"shape") ];
    Code
      [SAssert ($"X"∙"indexes".[ELit]∙"equals" $$ [$"y"∙"indexes".[ELit]])];
    Markdown;
    Code [EOp [$"X_train"; $"X_test"; $"y_train"; $"y_test"] <~ ELit];
    Code [SMagic "%load solutions/train_test_split.py"];
    Markdown;
    Code
      [ $"clf" <~ $"sklearn"∙"neighbors"∙"KNeighborsClassifier" $$ [];
        SExpr ($"clf"∙"fit" $$ [ELit]) ];
    Code [SMagic "%load solutions/fit_knn.py"];
    Markdown;
    Code [SExpr ($"clf"∙"score" $$ [ELit])];
    Code [SMagic "%load solutions/score_knn_train.py"];
    Code [SExpr ($"clf"∙"score" $$ [ELit])];
    Code [SMagic "%load solutions/score_knn_test.py"];
    Markdown;
    Code
      [ SImport "rasterio.plot" "rasterio";
        $"yhat" <~ $"clf"∙"predict" $$ [$"X"];
        SExpr
          ($"rasterio"∙"plot"∙"show" $$
              [$"yhat"∙"reshape" $$ [$"labels"∙"shape"]; ELit]) ];
    Markdown ].

Definition segmentation : list cell :=
  [ Markdown;
    Code
      [ SImport "pystac" "pystac";
        SImport "pystac_client" "pystac_client";
        SImport "requests" "requests";
        SImport "shapely.geometry" "shapely";
        SImport "rioxarray" "rioxarray";
        SImport "planetary_computer" "planetary_computer";
        SImport "stackstac" "stackstac";
        SImport "torch" "torch";
        SImport "torch.utils.data" "torch";
        SImport "rasterio.plot" "rasterio";
        SImport "numpy" "np";
        SImport "dask" "dask";
        SImport "contextlib" "contextlib";
        SImport "warnings" "warnings";
        SExpr ($"warnings"∙"filterwarnings" $$ [ELit; ELit]);
        SIf ($"torch"∙"cuda"∙"is_available" $$ [])
          [$"device" <~ ELit; $"device_ctx" <~ $"torch"∙"cuda"∙"device"]
          [ $"device" <~ ELit;
            $"device_ctx" <~ $"contextlib"∙"nullcontext";
            SImport "subprocess" "subprocess";
            SExpr
              ($"subprocess"∙"call" $$ [EOp [ELit; ELit; ELit; ELit]]) ] ];
    Markdown;
    Code [$"training_catalog" <~ $"pystac"∙"read_file" $$ [ELit]];
    Markdown;
    Code
      [ SFromImport "dask.distributed" ["Client"];
        $"client" <~ $"Client" $$ [];
        SExpr
          ($"client"∙"run" $$
              [ELambda [] ($"warnings"∙"filterwarnings" $$ [ELit; ELit])]);
        SExpr $"client" ];
    Markdown;
    Markdown;
    Code
      [ $"N_SCENES" <~ ELit;
        $"links" <~
          $"training_catalog"∙"get_item_links" $$ [].[EOp [$"N_SCENES"]];
        $"label_items" <~
          EComp ($"link"∙"resolve_stac_object" $$ []∙"target") ["link"]
            $"links"
            [] ];
    Markdown;
    Code
      [ $"label_item" <~
          $"next" $$ [$"training_catalog"∙"get_all_items" $$ []];
        SExpr
          ($"rasterio"∙"plot"∙"show" $$
              [ $"rasterio"∙"open" $$
                    [$"label_item"∙"assets".[ELit]∙"href"] ]) ];
    Markdown;
    Code
      [ $"labels" <~
          $"requests"∙"get" $$ [$"label_item"∙"assets".[ELit]∙"href"]
            ∙"json" $$ [];
        SExpr $"labels" ];
    Code
      [ SFromImport "ipyleaflet" ["Map"; "GeoJSON"];
        $"data" <~ EOp [ELit; ELit; ELit; EOp []];
        SFor ["label_item"] $"label_items"
          [SExpr ($"data".[ELit]∙"append" $$ [$"label_item"∙"geometry"])];
        $"center" <~
          $"shapely"∙"geometry"∙"shape" $$ [$"label_item"∙"geometry"]
            ∙"centroid"∙"bounds".[EOp [ELit]].[EOp [EOp [ELit]]];
        $"m" <~ $"Map" $$ [EOp [EOp [ELit]; ELit]; ELit];
        $"layer" <~ $"GeoJSON" $$ [$"data"];
        SExpr ($"m"∙"add_layer" $$ [$"layer"]);
        $"m"∙"layout"∙"max_width" <~ ELit;
        SExpr $"m" ];
    Markdown;
    Code
      [ SExpr
          ($"set" $$
              [ EComp ($"label_item"∙"datetime") ["label_item"]
                  $"label_items"
                  [] ]) ];
    Markdown;
    Code
      [ $"bboxes" <~
          $"np"∙"array" $$
              [ EComp ($"label_item"∙"bbox") ["label_item"] $"label_items"
                  [] ];
        $"mins" <~ $"bboxes"∙"min" $$ [ELit];
        $"maxes" <~ $"bboxes"∙"max" $$ [ELit];
        $"bbox" <~
          EOp
            [ $"mins".[ELit];
              $"mins".[ELit];
              $"maxes".[ELit];
              $"maxes".[ELit] ] ];
    Markdown;
    Code
      [ $"stac_client" <~ $"pystac_client"∙"Client"∙"open" $$ [ELit];
        $"date_range" <~ ELit;
        $"search" <~
          $"stac_client"∙"search" $$
              [EOp [ELit]; $"bbox"; $"date_range"; ELit];
        $"sentinel_items" <~ $"list" $$ [$"search"∙"get_all_items" $$ []];
        SExpr ($"len" $$ [$"sentinel_items"]) ];
    Markdown;
    Code
      [ SDef "find_match" ["label_item"; "sentinel_items"]
          [ $"label_shape" <~
              $"shapely"∙"geometry"∙"shape" $$ [$"label_item"∙"geometry"];
            $"items2" <~
              EComp $"item" ["item"] $"sentinel_items"
                [ EOp
                    [ EOp
                        [ $"shapely"∙"geometry"
                            ∙"shape" $$ [$"item"∙"geometry"]
                            ∙"intersection" $$ [$"label_shape"]
                            ∙"area";
                          $"label_shape"∙"area" ];
                      ELit ] ];
            $"sentinel_item" <~
              $"sorted" $$
                  [ $"items2";
                    ELambda ["item"]
                      ($"pystac"∙"extensions"∙"eo"
                        ∙"EOExtension"∙"ext" $$ [$"item"]
                        ∙"cloud_cover") ]
                .[ELit];
            SReturn $"sentinel_item" ];
        SDef "get_item" ["label_item"; "sentinel_items"; "assets"]
          [ $"assets" <~ $"list" $$ [$"assets"];
            $"labels" <~
              $"rioxarray"∙"open_rasterio" $$
                  [$"label_item"∙"assets".[ELit]∙"href"]
                ∙"squeeze" $$ [];
            $"sentinel_item" <~
              $"find_match" $$ [$"label_item"; $"sentinel_items"];
            $"bounds" <~
              $"tuple" $$
                  [ EComp ($"round" $$ [$"x"; ELit]) ["x"]
                      ($"labels"∙"rio"∙"bounds" $$ [])
                      [] ];
            $"data" <~
              $"stackstac"∙"stack" $$
                  [ $"planetary_computer"∙"sign" $$ [$"sentinel_item"]
                      ∙"to_dict" $$ [];
                    $"assets";
                    ELit;
                    ELit;
                    $"bounds";
                    $"labels"∙"rio"∙"crs"∙"to_epsg" $$ [] ]
                ∙"squeeze" $$ []∙"compute" $$ [ELit];
            SAssert (EOp [$"data"∙"shape".[EOp [ELit]]; $"labels"∙"shape"]);
            $"data" <~
              $"data"∙"assign_coords" $$
                  [$"labels"∙"x"∙"data"; $"labels"∙"y"∙"data"];
            SAugAssign $"data" ELit;
            $"data" <~ $"np"∙"clip" $$ [$"data"; ELit; ELit];
            SReturn (EOp [$"data"; $"labels"∙"astype" $$ [ELit]]) ] ];
    Markdown;
    Code
      [ $"get_item_" <~ $"dask"∙"delayed" $$ [$"get_item"; ELit];
        $"assets" <~ EOp [ELit; ELit; ELit];
        $"Xys" <~
          EComp
            ($"get_item_" $$ [$"label_item"; $"sentinel_items"; $"assets"])
            ["label_item"]
            $"label_items"
            [];
        $"Xys" <~ $"dask"∙"persist" $$ [$"Xys"];
        $"Xys" <~ $"dask"∙"compute" $$ [$"Xys"] ];
    Markdown;
    Code
      [ SClass "STACDataset" [$"torch"∙"utils"∙"data"∙"Dataset"]
          [ SDef "__init__" ["self"; "data"] [$"self"∙"data" <~ $"data"];
            SDef "__len__" ["self"] [SReturn ($"len" $$ [$"self"∙"data"])];
            SDef "__getitem__" ["self"; "idx"]
              [ EOp [$"X"; $"y"] <~ $"self"∙"data".[$"idx"];
                $"X" <~ $"torch"∙"as_tensor" $$ [$"X"∙"data"];
                $"y" <~ $"torch"∙"as_tensor" $$ [$"y"∙"data"];
                SReturn (EOp [$"X"; $"y"]) ] ];
        $"dataset" <~ $"STACDataset" $$ [$"Xys"];
        $"loader" <~
          $"torch"∙"utils"∙"data"∙"DataLoader" $$ [$"dataset"; ELit] ];
    Markdown;
    Code
      [ SImport "segmentation_models_pytorch" "smp";
        SImport "torch" "torch";
        $"model" <~
          $"smp"∙"Unet" $$
              [ELit; $"len" $$ [$"assets"]; $"len" $$ [$"labels"]];
        $"loss" <~ $"smp"∙"utils"∙"losses"∙"CrossEntropyLoss" $$ [];
        $"optimizer" <~
          $"torch"∙"optim"∙"Adam" $$
              [$"list" $$ [$"model"∙"parameters" $$ []]];
        $"metrics" <~ EOp [$"smp"∙"utils"∙"metrics"∙"IoU" $$ [ELit]];
        $"train_epoch" <~
          $"smp"∙"utils"∙"train"∙"TrainEpoch" $$
              [ $"model";
                $"loss";
                $"metrics";
                $"optimizer";
                $"device";
                ELit ] ];
    Markdown;
    Code
      [ SMagic "%%time";
        SWith [$"device_ctx" $$ [$"device"]]
          [SExpr ($"train_epoch"∙"run" $$ [$"loader"])] ];
    Markdown;
    Code
      [ SImport "numpy" "np";
        SImport "matplotlib.pyplot" "plt";
        SDef "visualize" ["X"; "y"]
          [ SWith [$"torch"∙"no_grad" $$ []]
              [ $"X2" <~
                  $"X"∙"reshape" $$ [EOp [EOp [ELit]; $"X"∙"shape"]]
                    ∙"to" $$ [$"device"];
                $"output" <~ $"model"∙"predict" $$ [$"X2"] ];
            $"data" <~ $"np"∙"asarray" $$ [$"X"∙"to" $$ [ELit]].[ELit];
            $"output" <~
              $"np"∙"asarray" $$
                  [$"output".[ELit]∙"argmax" $$ [ELit]∙"to" $$ [ELit]];
            EOp [$"fig"; EOp [$"ax1"; $"ax2"; $"ax3"]] <~
              $"plt"∙"subplots" $$ [ELit; ELit; ELit];
            SExpr ($"ax1"∙"imshow" $$ [$"data"; ELit]);
            SExpr
              ($"rasterio"∙"plot"∙"show" $$
                  [$"np"∙"asarray" $$ [$"y"∙"to" $$ [ELit]]; $"ax2"]);
            SExpr ($"rasterio"∙"plot"∙"show" $$ [$"output"; $"ax3"]);
            SReturn (EOp [$"ax1"; $"ax2"; $"ax3"]) ] ];
    Markdown;
    Code
      [ SFor ["i"] ($"range" $$ [ELit])
          [SExpr ($"visualize" $$ [$"dataset".[$"i"]])] ];
    Markdown;
    Code
      [ SMagic "%%time";
        SWith [$"device_ctx" $$ [ELit]]
          [ SFor ["i"] ($"range" $$ [ELit])
              [ SExpr ($"train_epoch"∙"run" $$ [$"loader"]);
                SExpr ($"print" $$ [$"i"; ELit]) ] ] ];
    Code
      [ SFor ["i"] ($"range" $$ [ELit])
          [SExpr ($"visualize" $$ [$"dataset".[$"i"]])] ];
    Markdown ].

End Nb.

(** The flow of the exploratory notebook, by the calls that make its steps:
    open the catalog of labels, fetch an item, load its raster, search the
    Planetary Computer's catalog, reproject and crop, fit the estimator. *)
Definition explore_flow : list (list string) :=
  [ ["pystac"; "read_file"];
    ["label_links"; "[]"; "resolve_stac_object"];
    ["rioxarray"; "open_rasterio"];
    ["stac_client"; "search"];
    ["stackstac"; "stack"];
    ["clf"; "fit"] ].

(** Each position is known and comes before the next. *)
Fixpoint increasing (positions : list (option nat)) : bool :=
  match positions with
  | Some a :: ((Some b :: _) as rest) => bool_decide (a < b)%nat && increasing rest
  | [Some _] | [] => true
  | _ => false
  end.

(** ** [deploy/Makefile]

    The file line by line.  A recipe line is a line that starts with a tab;
    it is kept without its leading white space, and without the backslash
    that continues it on the next line, which [continued] records. *)

Module Make.

Inductive line : Type :=
| Blank
| Assign (name op value : string)
| Rule (targets prerequisites : list string)
| Recipe (text : string) (continued : bool).

Record rule : Type := mkRule {
  target : string;
  deps : list string;
  recipe : list string;
}.

(** The rules of a makefile, each with the commands of its recipe; a
    continued line is one command with the lines that follow it. *)
Fixpoint parse (lines : list line) : list string * list rule :=
  match lines with
  | [] => ([], [])
  | l :: lines' =>
      let '(commands, rules) := parse lines' in
      match l with
      | Blank => (commands, rules)
      | Assign _ _ _ => ([], rules)
      | Recipe text continued =>
          (match continued, commands with
           | true, next :: commands' => (text +:+ " " +:+ next) :: commands'
           | _, _ => text :: commands
           end, rules)
      | Rule targets prerequisites =>
          ([], ((λ t, mkRule t prerequisites commands) <$> targets) ++ rules)
      end
  end.

(** [.PHONY] and the like are directives of make, not targets to build. *)
Definition special (t : string) : bool := String.prefix "." t.

Definition rules (lines : list line) : list rule :=
  List.filter (λ r, negb (special (target r))) (parse lines).2.

Definition targets_of (lines : list line) : list string :=
  target <$> rules lines.

(** A recipe line that starts with [#] reaches the shell as a comment and
    runs nothing. *)
Definition is_comment (command : string) : bool := String.prefix "#" command.

Definition commands (r : rule) : list string :=
  List.filter (λ c, negb (is_comment c)) (recipe r).

(** The program a command invokes: its first word. *)
Fixpoint program (command : string) : string :=
  match command with
  | EmptyString => EmptyString
  | String c rest =>
      if Ascii.eqb c Ascii.Space then EmptyString else String c (program rest)
  end.

Definition dquote : string := String (Ascii.ascii_of_nat 34) EmptyString.

Definition Makefile : list line :=
  [ Rule [".PHONY"] ["group"; "cluster"; "hub"; "clean"; "storage"];
    Blank;
    Assign "LOCATION" "?=" "westeurope";
    Assign "GROUP" "?=" "esip2021";
    Assign "CLUSTER" "?=" "pangeoCluster";
    Assign "STORAGE_ACCOUNT" "?=" "$(GROUP)";
    Assign "STORAGE_CONTAINER" "?=" "$(GROUP)";
    Assign "MAX_USER_NODE_COUNT" "?=" "60";
    Assign "MAX_WORKER_NODE_COUNT" "?=" "100";
    Assign "NODE_COUNT" "?=" "0";
    Assign "SUBSCRIPTION" "="
           (dquote +:+ "Planetary Computer" +:+ dquote);
    Blank;
    Rule ["group"] [];
    Recipe "az group create --name $(GROUP) --location $(LOCATION)" false;
    Blank;
    Rule ["cluster"] [];
    Recipe ("az aks create --resource-group $(GROUP) --name $(CLUSTER) "
            +:+ "--generate-ssh-keys") true;
    Recipe "--node-count=1" true;
    Recipe "--nodepool-name core" true;
    Recipe "--nodepool-labels hub.jupyter.org/node-purpose=core" false;
    Recipe "az aks get-credentials --name $(CLUSTER) --resource-group $(GROUP)"
           false;
    Blank;
    Rule ["userpools"] [];
    Recipe "# NC4as_T4_v3" false;
    Recipe "az aks nodepool add --name gpumanual" true;
    Recipe "--cluster-name $(CLUSTER)" true;
    Recipe "--resource-group $(GROUP)" true;
    Recipe "--node-vm-size Standard_NC4as_T4_v3" true;
    Recipe "--node-count 0" true;
    Recipe "--aks-custom-headers UseGPUDedicatedVHD=true" true;
    Recipe ("--labels hub.jupyter.org/node-purpose=user "
            +:+ "hub.jupyter.org/pool-name=user-alpha-pool computetype=gpu")
           true;
    Recipe ("--node-taints " +:+ dquote
            +:+ "hub.jupyter.org_dedicated=user:NoSchedule" +:+ dquote)
           false;
    Blank;
    Rule ["storage"] [];
    Recipe "az storage account create" true;
    Recipe "--name=$(STORAGE_ACCOUNT)" true;
    Recipe "--resource-group=$(GROUP)" true;
    Recipe "--location=$(LOCATION)" false;
    Recipe "az storage container create" true;
    Recipe "--name=esip2021" true;
    Recipe "--account-name=$(STORAGE_CONTAINER)" true;
    Recipe "--public-access blob" false;
    Blank;
    Rule ["hub"] [];
    Recipe "helm upgrade --wait --install --create-namespace" true;
    Recipe "dask dask/daskhub" true;
    Recipe "--version=2021.7.0" true;
    Recipe "--namespace=dhub" true;
    Recipe "--values=config.yaml" true;
    Recipe "--values=secrets.yaml" false;
    Blank;
    Rule ["scale"] [];
    Recipe "az aks nodepool scale" true;
    Recipe "--name=gpumanual" true;
    Recipe "--cluster-name=$(CLUSTER)" true;
    Recipe "--resource-group=$(GROUP)" true;
    Recipe "--node-count=NODE_COUNT" false;
    Blank;
    Rule ["clean"] [];
    Recipe "az group delete -n $(GROUP)" false ].

End Make.

(** ** [deploy/config.yaml]

    The values file as a tree; comments are dropped.  The block scalar
    under [01-optionHandler] is Python source: it is [Gateway.cluster_options]
    above and stands here as [Python]. *)

Module Yaml.

Inductive node : Type :=
| Str (s : string)
| Int (n : Z)
| Bool (b : bool)
| Seq (items : list node)
| Map (entries : list (string * node))
| Python.

Definition entry (key : string) (entries : list (string * node))
  : option node :=
  snd <$> List.find (λ kv, bool_decide (kv.1 = key)) entries.









End Yaml.

(** ** Tactics *)

(** Turn the outcome of a comparison of rationals into the order it states. *)
Ltac Qcompare_props :=
  repeat match goal with
    | H : Qcompare _ _ = Eq |- _ => apply Qeq_alt in H
    | H : Qcompare _ _ = Lt |- _ => apply Qlt_alt in H
    | H : Qcompare _ _ = Gt |- _ => apply Qgt_alt in H
    end.

(** ** More of the notebooks *)

(** [t[idx]] on a tuple or a list: a negative index counts from the end,
    and an index outside the sequence raises [IndexError]. *)
Definition py_index {A} (l : list A) (idx : Z) : result A :=
  let n := Z.of_nat (length l) in
  let i := if (idx <? 0)%Z then (idx + n)%Z else idx in
  if ((0 <=? i) && (i <? n))%Z then
    match l !! Z.to_nat i with
    | Some a => Ok a
    | None => Raise IndexError
    end
  else Raise IndexError.

(** [range(n)]. *)
Definition py_range (n : nat) : list Z := Z.of_nat <$> seq 0 n.

(** [l[:n]]. *)
Definition py_head_slice {A} (n : nat) (l : list A) : list A := take n l.

(** [for a in l: f(a)]: the loop ends at the first call that raises. *)
Fixpoint for_each {A} (f : A → result unit) (l : list A) : result unit :=
  match l with
  | [] => Ok ()
  | a :: l' => _ ← f a; for_each f l'
  end.

Section Exploration.

Context {Item Shape : Type} `{!Stac Item Shape}.


End Exploration.

(** The exploratory notebook's fix of the coordinate labels:
    [data.assign_coords(y=lambda ds: (ds.y - 5).round(),
                        x=lambda ds: (ds.x + 5).round())]. *)
Definition fix_half_pixel {A} (a : DataArray A) : DataArray A :=
  Xr.assign_coords a ((λ v, Py.round0 (v + 5)) <$> x a)
                     ((λ v, Py.round0 (v - 5)) <$> y a).

(** [(a == b).all()] on two coordinate arrays of one length. *)
Fixpoint all_equal (a b : list Q) : bool :=
  match a, b with
  | [], [] => true
  | v :: a', v' :: b' => Qeq_bool v v' && all_equal a' b'
  | _, _ => false
  end.

(** The two [assert]s that follow the fix. *)
Definition check_coords {A B} (data2 : DataArray A) (labels : DataArray B)
  : result unit :=
  if all_equal (x data2) (x labels) then
    if all_equal (y data2) (y labels) then Ok () else Raise AssertionError
  else Raise AssertionError.

(** *** The bounding box of the label chips

    [bboxes = np.array([label_item.bbox for label_item in label_items])],
    one row of west, south, east, north per chip; [bboxes.min(0)] and
    [bboxes.max(0)] reduce each column and raise [ValueError] on no rows. *)

Definition bbox : Type := Q * Q * Q * Q.

Definition zip4 (op : Q → Q → Q) (a b : bbox) : bbox :=
  let '(a0, a1, a2, a3) := a in
  let '(b0, b1, b2, b3) := b in
  (op a0 b0, op a1 b1, op a2 b2, op a3 b3).

Definition np_reduce0 (name : string) (op : Q → Q → Q) (rows : list bbox)
  : result bbox :=
  match rows with
  | [] => Raise (ValueError ("zero-size array to reduction operation "
                            +:+ name +:+ " which has no identity"))
  | row :: rows' => Ok (foldl (zip4 op) row rows')
  end.

(** [mins = bboxes.min(0); maxes = bboxes.max(0);
     bbox = mins[0], mins[1], maxes[2], maxes[3]]. *)
Definition search_bbox (bboxes : list bbox) : result bbox :=
  mins ← np_reduce0 "minimum" Qmin bboxes;
  maxes ← np_reduce0 "maximum" Qmax bboxes;
  mret (mins.1.1.1, mins.1.1.2, maxes.1.2, maxes.2).

(** One box lies inside another. *)
Definition bbox_inside (inner outer : bbox) : Prop :=
  outer.1.1.1 <= inner.1.1.1 ∧ outer.1.1.2 <= inner.1.1.2
  ∧ inner.1.2 <= outer.1.2 ∧ inner.2 <= outer.2.

(** *** The dataset

    [torch.as_tensor(X.data)]: the values of an array without its
    coordinates. *)
Record Tensor (A : Type) : Type := mkTensor {
  t_shape : list nat;
  t_dtype : string;
  t_data : list A;
}.
Arguments mkTensor {A}.
Arguments t_shape {A}.
Arguments t_dtype {A}.
Arguments t_data {A}.

Definition as_tensor {A} (a : DataArray A) : Tensor A :=
  mkTensor (shape a) (dtype a) (data a).

Module STACDataset.

Record t : Type := mk { data : list (DataArray f32 * DataArray Z) }.

Definition __init__ (data : list (DataArray f32 * DataArray Z)) : t :=
  mk data.

Definition __len__ (self : t) : nat := length (data self).

Definition __getitem__ (self : t) (idx : Z) : result (Tensor f32 * Tensor Z) :=
  Xy ← py_index (data self) idx;
  let X := as_tensor Xy.1 in
  let y := as_tensor Xy.2 in
  mret (X, y).

End STACDataset.

(** The loop [for i in range(10)] that plots [dataset[i]], with the
    plotting function [visualize] as a parameter. *)
Definition visualize_first (n : nat)
    (visualize : Tensor f32 → Tensor Z → result unit)
    (dataset : STACDataset.t) : result unit :=
  for_each (λ i, Xy ← STACDataset.__getitem__ dataset i;
                 visualize Xy.1 Xy.2)
           (py_range n).

(** A sample that the training loop can take: values in [[0, 1]] or NaN,
    labels of dtype int64 and of the imagery's shape after its first axis. *)
Definition sample_ok (Xy : Tensor f32 * Tensor Z) : Prop :=
  Forall (λ v, v = NaN ∨ in_unit_interval v) (t_data Xy.1)
  ∧ tail (t_shape Xy.1) = t_shape Xy.2
  ∧ t_dtype Xy.2 = "int64"%string.

(** *** Running the segmentation notebook with its functions

    When a step mentions a function or class of the notebook, the names
    that its body reads from the notebook's globals must be bound too, and
    so must those of the functions it calls in turn. *)

(** The names a body assigns: the locals of a function. *)
Fixpoint assigned_names (s : Nb.stmt) : list string :=
  match s with
  | Nb.SImport _ bound => [bound]
  | Nb.SFromImport _ names => names
  | Nb.SAssign targets _ => flat_map Nb.target_binds targets
  | Nb.SAugAssign target _ => Nb.target_binds target
  | Nb.SDef name _ _ | Nb.SClass name _ _ => [name]
  | Nb.SFor targets _ body => targets ++ flat_map assigned_names body
  | Nb.SIf _ body orelse =>
      flat_map assigned_names body ++ flat_map assigned_names orelse
  | Nb.SWith _ body => flat_map assigned_names body
  | Nb.SExpr _ | Nb.SAssert _ | Nb.SReturn _ | Nb.SMagic _ => []
  end.

(** The globals that a function reads when it runs. *)
Definition function_globals (params : list string) (body : list Nb.stmt)
  : list string :=
  Nb.without (params ++ flat_map assigned_names body)
             (flat_map Nb.mentions body).

(** The globals behind a definition: those of the function, or those of
    the methods and the bases of the class. *)
Definition global_reads (s : Nb.stmt) : list string :=
  match s with
  | Nb.SDef _ params body => function_globals params body
  | Nb.SClass _ bases body =>
      flat_map Nb.free bases
      ++ flat_map (λ m, match m with
                        | Nb.SDef _ params body' => function_globals params body'
                        | other => Nb.mentions other
                        end) body
  | _ => []
  end.

Definition defined_name (s : Nb.stmt) : option string :=
  match s with
  | Nb.SDef name _ _ | Nb.SClass name _ _ => Some name
  | _ => None
  end.

Definition globals_of (table : list (string * list string)) (name : string)
  : list string :=
  default [] (snd <$> List.find (λ entry, bool_decide (entry.1 = name)) table).

(** [names], the globals of those among them that are functions, and so on
    through the calls. *)
Fixpoint reach (fuel : nat) (table : list (string * list string))
    (names : list string) : list string :=
  match fuel with
  | O => names
  | S fuel' => names ++ reach fuel' table (flat_map (globals_of table) names)
  end.

Fixpoint check_block (table : list (string * list string))
    (env : list string) (body : list Nb.stmt) : bool :=
  match body with
  | [] => true
  | s :: body' =>
      let needed :=
        match defined_name s with
        | Some _ => []
        | None =>
            reach (length table) table
                  (flat_map (globals_of table) (Nb.mentions s))
        end in
      let table' :=
        match defined_name s with
        | Some name => (name, global_reads s) :: table
        | None => table
        end in
      match Nb.run_stmt env s with
      | Some env' => Nb.all_bound env' needed && check_block table' env' body'
      | None => false
      end
  end.

(** Run from the first cell to the last, no statement and no function it
    uses reads a name that is not bound yet. *)
Definition runs_with_functions (nb : list Nb.cell) : bool :=
  check_block [] Nb.builtins (flat_map Nb.cell_body nb).

(** ** Running the Makefile

    [make goal] with the variables [given] from the environment: the recipe
    of the goal's rule with its variables expanded, or nothing when no rule
    makes the goal. *)

Module MakeRun.

(** The value of a variable after the assignments of the makefile: [?=]
    keeps a value that is there already, [=] replaces it. *)
Fixpoint assigned (lines : list Make.line) (name : string)
    (current : option string) : option string :=
  match lines with
  | [] => current
  | Make.Assign n op v :: lines' =>
      if bool_decide (n = name) then
        assigned lines' name
                 (Some (if bool_decide (op = "?=") then default v current
                        else v))
      else assigned lines' name current
  | _ :: lines' => assigned lines' name current
  end.

(** A variable that nothing defines expands to the empty string. *)
Definition value (lines : list Make.line) (given : gmap string string)
    (name : string) : string :=
  default EmptyString (assigned lines name (given !! name)).

Definition dollar : Ascii.ascii := Ascii.ascii_of_nat 36.
Definition lparen : Ascii.ascii := Ascii.ascii_of_nat 40.
Definition rparen : Ascii.ascii := Ascii.ascii_of_nat 41.

(** One pass over a text: [$(NAME)] becomes [expanded NAME], [$$] becomes
    [$], and [$c] is the variable of the one letter [c].  [name] holds the
    letters read since an opening [$(]. *)
Fixpoint scan (expanded : string → string) (name : option string)
    (s : string) : string :=
  match s with
  | EmptyString => EmptyString
  | String c rest =>
      match name with
      | Some n =>
          if Ascii.eqb c rparen then expanded n +:+ scan expanded None rest
          else scan expanded (Some (n +:+ String c EmptyString)) rest
      | None =>
          if Ascii.eqb c dollar then
            match rest with
            | EmptyString => String c EmptyString
            | String c' rest' =>
                if Ascii.eqb c' lparen then scan expanded (Some EmptyString) rest'
                else if Ascii.eqb c' dollar then
                  String dollar (scan expanded None rest')
                else expanded (String c' EmptyString)
                     +:+ scan expanded None rest'
            end
          else String c (scan expanded None rest)
      end
  end.

(** Expansion is recursive: the value of a variable is expanded in turn.
    [depth] bounds the nesting of variables in values. *)
Fixpoint expand (depth : nat) (val : string → string) (s : string) : string :=
  match depth with
  | O => s
  | S depth' => scan (λ n, expand depth' val (val n)) None s
  end.

(** The nesting allowed: one level per assignment of the makefile. *)
Definition depth_of (lines : list Make.line) : nat :=
  S (length (List.filter (λ l, match l with
                               | Make.Assign _ _ _ => true
                               | _ => false
                               end) lines)).

Definition run (lines : list Make.line) (given : gmap string string)
    (goal : string) : option (list string) :=
  (λ r, expand (depth_of lines) (value lines given) <$> Make.recipe r)
    <$> List.find (λ r, bool_decide (Make.target r = goal)) (Make.rules lines).

(** A text without [$]. *)
Fixpoint plain (s : string) : bool :=
  match s with
  | EmptyString => true
  | String c rest => negb (Ascii.eqb c dollar) && plain rest
  end.

End MakeRun.

(** ** [deploy/README.md]: the commands of the deployment section, each
       with the variables it sets in the environment. *)

Module Readme.

Record step : Type := mkStep {
  environment : list (string * string);
  goal : string;
}.

Definition deployment : list step :=
  [ mkStep [] "resource-group";
    mkStep [] "cluster";
    mkStep [] "hub";
    mkStep [] "userpools";
    mkStep [("NODE_COUNT", "1")] "scale" ].

End Readme.

(** ** What [get_item] does to one pixel of the stack: values up to 0 become
       0, values from 4000 on become 1, those between are divided by 4000,
       and NaN stays. *)
Definition rescaled (v v' : f32) : Prop :=
  match v with
  | Fin q =>
      ∃ q', v' = Fin q'
            ∧ (q <= 0 → q' == 0)
            ∧ (0 <= q <= 4000 → q' == q / 4000)
            ∧ (4000 <= q → q' == 1)
  | PInf => v' = Fin 1
  | NInf => v' = Fin 0
  | NaN => v' = NaN
  end.

(** * Properties

    ** The embedding on concrete inputs *)

Example percent_f_095 : Py.percent_f (0.95 * 2) = "1.900000".
Proof. vm_compute. reflexivity. Qed.

Example percent_f_third : Py.percent_f (1 # 3) = "0.333333".
Proof. vm_compute. reflexivity. Qed.

Example contains_colon :
  Py.contains ":" "pangeo/pangeo-notebook:latest" = true
  ∧ Py.contains ":" "pangeo/pangeo-notebook" = false.
Proof. vm_compute. split; reflexivity. Qed.

Example round0_half : Py.round0 (5 # 2) = 2 ∧ Py.round0 (7 # 2) = 4.
Proof. vm_compute. split; reflexivity. Qed.

Example sorted_stable :
  Py.sorted (λ p : Q * nat, p.1) [(2, 0%nat); (1, 1%nat); (2, 2%nat); (1, 3%nat)]
  = [(1, 1%nat); (1, 3%nat); (2, 0%nat); (2, 2%nat)].
Proof. vm_compute. reflexivity. Qed.

Example option_handler_default :
  Gateway.option_handler
    (Gateway.mkOptions 1 2 "pangeo/pangeo-notebook:latest" ∅)
  = Ok (<["worker_cores" := Gateway.VFloat (0.88 * Py.min (1 / 2) 1)]>
       (<["worker_cores_limit" := Gateway.VFloat 1]>
       (<["worker_memory" := Gateway.VStr "1.900000G"]>
       (<["worker_memory_limit" := Gateway.VStr "2.000000G"]>
       (<["image" := Gateway.VStr "pangeo/pangeo-notebook:latest"]>
       (<["environment" := Gateway.VDict ∅]> ∅)))))).
Proof. reflexivity. Qed.

Example option_handler_no_tag :
  Gateway.option_handler (Gateway.mkOptions 1 2 "pangeo/pangeo-notebook" ∅)
  = Raise (ValueError "When specifying an image you must also provide a tag").
Proof. reflexivity. Qed.

(** ** Python numbers *)

Lemma Qltb_lt (a b : Q) : Py.Qltb a b = true ↔ a < b.
Proof.
  unfold Py.Qltb. rewrite negb_true_iff, <- not_true_iff_false, Qle_bool_iff.
  split; [apply Qnot_le_lt | apply Qlt_not_le].
Qed.

Lemma Qltb_ge (a b : Q) : Py.Qltb a b = false ↔ b <= a.
Proof.
  unfold Py.Qltb. rewrite negb_false_iff. apply Qle_bool_iff.
Qed.

Lemma py_min_Qmin (a b : Q) : Py.min a b == Qmin a b.
Proof.
  unfold Py.min. destruct (Py.Qltb b a) eqn:E.
  - apply Qltb_lt in E. symmetry. apply Q.min_r. lra.
  - apply Qltb_ge in E. symmetry. apply Q.min_l. lra.
Qed.




Lemma index0_raise {A} (l : list A) (e : exn) :
  Py.index0 l = Raise e ↔ e = IndexError ∧ l = [].
Proof.
  destruct l; simpl; (split; [intros [= <-] | intros [-> ?]]); done.
Qed.

Lemma comprehension_if_filter {A} (p : A → result bool) (f : A → bool)
    (l : list A) :
  (∀ a, a ∈ l → p a = Ok (f a)) →
  Py.comprehension_if p l = Ok (List.filter f l).
Proof.
  induction l as [| a l IH]; intros Hp; [reflexivity |].
  simpl. rewrite (Hp a) by left. simpl.
  rewrite IH by (intros; apply Hp; by right). simpl.
  by destruct (f a).
Qed.

Section Sorted.

Context {A : Type} (key : A → Q).





End Sorted.

(** ** [find_match] *)

Section FindMatch.

Context {Item Shape : Type} `{!Stac Item Shape}.

Lemma overlaps_coverage (label_item item : Item) :
  ¬ area (item_shape label_item) == 0 →
  overlaps (item_shape label_item) item
  = Ok (Py.Qltb 0.9 (coverage label_item item)).
Proof.
  intros Hne. unfold overlaps, Py.truediv.
  destruct (Qeq_bool _ 0) eqn:E; [| reflexivity].
  by apply Qeq_bool_iff in E.
Qed.

Lemma overlaps_zero_area (label_item item : Item) :
  area (item_shape label_item) == 0 →
  overlaps (item_shape label_item) item = Raise ZeroDivisionError.
Proof.
  intros Hz. unfold overlaps, Py.truediv.
  apply Qeq_bool_iff in Hz. by rewrite Hz.
Qed.

(** On a label of non-zero area [find_match] is: filter, sort, first. *)
Lemma find_match_filter_sort (label_item : Item) (sentinel_items : list Item) :
  ¬ area (item_shape label_item) == 0 →
  find_match label_item sentinel_items
  = Py.index0
      (Py.sorted cloud_cover
         (List.filter (λ item, Py.Qltb 0.9 (coverage label_item item))
                      sentinel_items)).
Proof.
  intros Hne. unfold find_match.
  rewrite (comprehension_if_filter _
             (λ item, Py.Qltb 0.9 (coverage label_item item)));
    [reflexivity |].
  intros item _. by apply overlaps_coverage.
Qed.

(** A label of zero area stops the comprehension at the first candidate. *)
Lemma find_match_zero_area (label_item item : Item) (rest : list Item) :
  area (item_shape label_item) == 0 →
  find_match label_item (item :: rest) = Raise ZeroDivisionError.
Proof.
  intros Hz. unfold find_match. simpl.
  by rewrite overlaps_zero_area.
Qed.

End FindMatch.




Example find_match_picks_hazy :
  find_match Rect.chip [Rect.half_clear; Rect.full_cloudy; Rect.full_hazy]
  = Ok Rect.full_hazy.
Proof. vm_compute. reflexivity. Qed.

Example find_match_none_qualifies :
  find_match Rect.chip [Rect.half_clear] = Raise IndexError.
Proof. vm_compute. reflexivity. Qed.

(** ** [option_handler] *)

Section GatewayProofs.

Import Gateway.


Lemma option_handler_untagged (options : Options) :
  Py.contains ":" (image options) = false →
  option_handler options
  = Raise (ValueError "When specifying an image you must also provide a tag").
Proof. intros Htag. unfold option_handler. by rewrite Htag. Qed.

End GatewayProofs.



(** ** [get_item] *)

Lemma clip_div_unit (v : f32) :
  Xr.clip_elem 0 1 (Xr.div_scalar 4000 v) = NaN
  ∨ in_unit_interval (Xr.clip_elem 0 1 (Xr.div_scalar 4000 v)).
Proof.
  destruct v as [q | | |]; simpl; [right | right | right | by left];
    eexists; (split; [reflexivity |]).
  - split; [apply Q.min_glb; [apply Q.le_max_r | lra] | apply Q.le_min_r].
  - lra.
  - split; [apply Q.min_glb; lra | apply Q.le_min_r].
Qed.

Lemma clip_div_nan (v : f32) :
  Xr.clip_elem 0 1 (Xr.div_scalar 4000 v) = NaN ↔ v = NaN.
Proof. destruct v; simpl; split; congruence. Qed.

Section GetItem.

Context {Item Shape : Type} `{!Stac Item Shape}.

(** What a returning call of [get_item] went through. *)
Lemma get_item_returns (w : Services Item) (label_item : Item)
    (sentinel_items : list Item) (assets : list string)
    (out : DataArray f32 * DataArray Z) :
  get_item w label_item sentinel_items assets = Ok out →
  ∃ href sentinel_item,
    assets_href label_item !! "labels" = Some href
    ∧ find_match label_item sentinel_items = Ok sentinel_item
    ∧ let labels := Xr.squeeze (open_rasterio w href) in
      let stacked :=
        Xr.squeeze (stack w (sign w sentinel_item) assets "float32" 10
                          (round_bounds (rio_bounds labels))
                          (rio_epsg labels)) in
      tail (shape stacked) = shape labels
      ∧ out = (Xr.clip (Xr.idiv (Xr.assign_coords stacked (x labels)
                                                   (y labels)) 4000) 0 1,
               Xr.astype_int64 labels).
Proof.
  unfold get_item, Py.getitem.
  destruct (assets_href label_item !! "labels") as [href |]; [| done].
  simpl. destruct (find_match label_item sentinel_items) as [s | e]; [| done].
  simpl. case_decide as Hshape; [| done].
  intros [= <-]. by exists href, s.
Qed.

(** Every error of [get_item] is the [KeyError] of the missing asset, an
    error of [find_match] passed on unchanged, or the [AssertionError] of
    its [assert]. *)
Lemma get_item_raises (w : Services Item) (label_item : Item)
    (sentinel_items : list Item) (assets : list string) (e : exn) :
  get_item w label_item sentinel_items assets = Raise e →
  (assets_href label_item !! "labels" = None ∧ e = KeyError "labels")
  ∨ find_match label_item sentinel_items = Raise e
  ∨ (returns (find_match label_item sentinel_items) ∧ e = AssertionError).
Proof.
  unfold get_item, Py.getitem.
  destruct (assets_href label_item !! "labels") as [href |];
    [| intros [= <-]; by left].
  simpl. destruct (find_match label_item sentinel_items) as [s | e'];
    [| intros [= <-]; right; by left].
  simpl. case_decide; [done |].
  intros [= <-]. right; right. split; [by exists s | done].
Qed.



End GetItem.

(** C6 (as amended): when [get_item] returns, every element of the imagery
    lies in [[0, 1]] or is NaN, and it is NaN exactly where the stack had
    NaN (no data); the imagery's shape after its first axis is the label
    chip's shape, and the labels come back with that shape and dtype int64. *)
Theorem get_item_output {Item Shape : Type} `{!Stac Item Shape}
    (w : Services Item) (label_item : Item) (sentinel_items : list Item)
    (assets : list string) (out : DataArray f32 * DataArray Z) :
  get_item w label_item sentinel_items assets = Ok out →
  ∃ href sentinel_item,
    assets_href label_item !! "labels" = Some href
    ∧ find_match label_item sentinel_items = Ok sentinel_item
    ∧ let labels := Xr.squeeze (open_rasterio w href) in
      let stacked :=
        stack w (sign w sentinel_item) assets "float32" 10
              (round_bounds (rio_bounds labels)) (rio_epsg labels) in
      get_item_spec (λ v, v = NaN ∨ in_unit_interval v) out labels
      ∧ Forall2 (λ v v', v' = NaN ↔ v = NaN) (data stacked) (data out.1).
Proof.
  intros (href & s & Hh & Hs & Hshape & ->)%get_item_returns.
  exists href, s. split; [exact Hh |]. split; [exact Hs |].
  split.
  - repeat split; simpl; try done.
    rewrite <- list_fmap_compose. apply Forall_fmap, Forall_true.
    intros v. apply clip_div_unit.
  - simpl. rewrite <- list_fmap_compose.
    apply Forall2_fmap_r, Forall_Forall2_diag, Forall_true.
    intros v. apply clip_div_nan.
Qed.

Lemma get_item_output_witness :
  get_item World.live Rect.chip
    [Rect.half_clear; Rect.full_cloudy; Rect.full_hazy] ["B03"; "B04"; "B05"]
  = Ok live_pair
  ∧ ∃ href sentinel_item,
      assets_href Rect.chip !! "labels" = Some href
      ∧ find_match Rect.chip
          [Rect.half_clear; Rect.full_cloudy; Rect.full_hazy]
        = Ok sentinel_item
      ∧ let labels := Xr.squeeze (open_rasterio World.live href) in
        let stacked :=
          stack World.live (sign World.live sentinel_item)
                ["B03"; "B04"; "B05"] "float32" 10
                (round_bounds (rio_bounds labels)) (rio_epsg labels) in
        get_item_spec (λ v, v = NaN ∨ in_unit_interval v) live_pair labels
        ∧ Forall2 (λ v v', v' = NaN ↔ v = NaN)
                  (data stacked) (data live_pair.1).
Proof.
  assert (get_item World.live Rect.chip
            [Rect.half_clear; Rect.full_cloudy; Rect.full_hazy]
            ["B03"; "B04"; "B05"]
          = Ok live_pair) as Hrun by (vm_compute; reflexivity).
  split; [exact Hrun |].
  exact (get_item_output World.live Rect.chip
           [Rect.half_clear; Rect.full_cloudy; Rect.full_hazy]
           ["B03"; "B04"; "B05"] live_pair Hrun).
Defined.

(** C6 as stated fails where the scene has no data: the fill value NaN
    passes the division and the clip unchanged, and NaN is not in [[0, 1]]. *)
Lemma get_item_keeps_nan :
  get_item World.live Rect.chip [Rect.full_hazy] ["B03"; "B04"; "B05"]
  = Ok live_pair
  ∧ NaN ∈ data live_pair.1
  ∧ ¬ get_item_spec in_unit_interval live_pair (Xr.squeeze World.label_raster).
Proof.
  split; [vm_compute; reflexivity |].
  split.
  - simpl. rewrite !elem_of_cons. tauto.
  - intros [Hall _]. simpl in Hall.
    rewrite Forall_forall in Hall.
    destruct (Hall NaN) as (q & [=] & _).
    rewrite !elem_of_cons. tauto.
Qed.

Example get_item_clips :
  (λ r, match r with
        | Ok out => Some (data out.1, shape out.1, shape out.2, dtype out.2)
        | Raise _ => None
        end)
    (get_item World.full Rect.chip [Rect.full_hazy] ["B03"; "B04"; "B05"])
  = Some ([Fin (800 # 4000); Fin 1; Fin 0; Fin (100 # 4000);
           Fin (1200 # 4000); Fin (3999 # 4000); Fin (0 # 4000); Fin (100 # 4000);
           Fin (2000 # 4000); Fin 1; Fin (4000 # 4000); Fin (100 # 4000)],
          [3; 2; 2]%nat, [2; 2]%nat, "int64").
Proof. vm_compute. reflexivity. Qed.

Example get_item_assert :
  get_item World.misaligned Rect.chip [Rect.full_hazy] ["B03"; "B04"; "B05"]
  = Raise AssertionError.
Proof. vm_compute. reflexivity. Qed.

Example get_item_no_match :
  get_item World.live Rect.chip [Rect.half_clear] ["B03"; "B04"; "B05"]
  = Raise IndexError.
Proof. vm_compute. reflexivity. Qed.

(** ** Errors *)

Lemma find_match_raises {Item Shape : Type} `{!Stac Item Shape}
    (label_item : Item) (sentinel_items : list Item) (e : exn) :
  find_match label_item sentinel_items = Raise e →
  e = IndexError ∨ e = ZeroDivisionError.
Proof.
  destruct (Qeq_dec (area (item_shape label_item)) 0) as [Hz | Hne].
  - destruct sentinel_items as [| item rest].
    + vm_compute. intros [= <-]. by left.
    + rewrite find_match_zero_area by done. intros [= <-]. by right.
  - rewrite find_match_filter_sort by done.
    intros [-> _]%index0_raise. by left.
Qed.




(** ** Determinism *)



(** ** The parallel load *)

Section Comprehension.

Context {A R : Type}.
Implicit Types (f : A → result R).

Lemma comprehension_ok f (l : list A) (values : list R) :
  Dask.comprehension f l = Ok values ↔ Forall2 (λ a v, f a = Ok v) l values.
Proof.
  revert values. induction l as [| a l IH]; intros values; simpl.
  - split; [intros [= <-]; constructor | by intros ->%Forall2_nil_inv_l].
  - destruct (f a) as [r |] eqn:Hfa; simpl.
    + destruct (Dask.comprehension f l) as [rs |] eqn:Hrest; simpl.
      * split.
        -- intros [= <-]. constructor; [done | by apply IH].
        -- intros (v & vs & Hv & Hvs & ->)%Forall2_cons_inv_l.
           apply IH in Hvs. rewrite Hfa in Hv.
           injection Hv as <-. injection Hvs as <-. reflexivity.
      * split; [done |].
        intros (v & vs & _ & Hvs & ->)%Forall2_cons_inv_l.
        by apply IH in Hvs.
    + split; [done |].
      intros (v & vs & Hv & _)%Forall2_cons_inv_l. congruence.
Qed.

Lemma comprehension_raise f (l : list A) (e : exn) :
  Dask.comprehension f l = Raise e → ∃ i a, l !! i = Some a ∧ f a = Raise e.
Proof.
  induction l as [| a l IH]; simpl; [done |].
  destruct (f a) as [r |] eqn:Hfa; simpl.
  - destruct (Dask.comprehension f l) as [rs |]; simpl; [done |].
    intros [= <-]. destruct (IH eq_refl) as (i & a' & Hi & Ha').
    by exists (S i), a'.
  - intros [= <-]. by exists 0%nat, a.
Qed.

End Comprehension.

Section DaskProofs.

Context {A R : Type}.
Implicit Types (tasks : list (@Dask.Delayed A R)) (f : A → result R).
Implicit Types (futures : gmap nat (result R)).

(** Whatever the order, a filled future holds the result of its own task. *)
Lemma persisted_futures tasks futures :
  Dask.persisted tasks futures →
  ∀ i r, futures !! i = Some r →
         ∃ d, tasks !! i = Some d ∧ r = Dask.run_task d.
Proof.
  unfold Dask.persisted. revert futures.
  apply (rtc_ind_r (λ futures, ∀ i r, futures !! i = Some r →
                                 ∃ d, tasks !! i = Some d ∧ r = Dask.run_task d)).
  - intros i r. by rewrite lookup_empty.
  - intros mid last _ Hstep IH.
    destruct Hstep as [j d futures Hd Hfree].
    intros i r. destruct (decide (i = j)) as [-> | Hne].
    + rewrite lookup_insert_eq. intros [= <-]. by exists d.
    + rewrite lookup_insert_ne by done. apply IH.
Qed.

Lemma exec_persisted tasks (order : list nat) futures :
  Dask.persisted tasks futures →
  Dask.persisted tasks (Dask.exec tasks order futures).
Proof.
  revert futures. induction order as [| i order IH]; intros futures Hrun;
    simpl; [done |].
  destruct (tasks !! i) as [d |] eqn:Hd; [| by apply IH].
  destruct (futures !! i) eqn:Hi; [by apply IH |].
  apply IH. eapply rtc_r; [exact Hrun | by constructor].
Qed.

Lemma exec_keeps tasks (order : list nat) futures (i : nat) :
  is_Some (futures !! i) → is_Some (Dask.exec tasks order futures !! i).
Proof.
  revert futures. induction order as [| j order IH]; intros futures Hi;
    simpl; [done |].
  destruct (tasks !! j) as [d |]; [| by apply IH].
  destruct (futures !! j) eqn:Hj; [by apply IH |].
  apply IH. destruct (decide (j = i)) as [-> | Hne].
  - by rewrite lookup_insert_eq.
  - by rewrite lookup_insert_ne.
Qed.

Lemma exec_fills tasks (order : list nat) futures (i : nat) :
  i ∈ order → (i < length tasks)%nat →
  is_Some (Dask.exec tasks order futures !! i).
Proof.
  revert futures. induction order as [| j order IH]; intros futures Hin Hlt.
  - by apply elem_of_nil in Hin.
  - apply elem_of_cons in Hin as [<- | Hin]; simpl.
    + destruct (lookup_lt_is_Some_2 tasks i Hlt) as [d Hd]. rewrite Hd.
      destruct (futures !! i) eqn:Hi.
      * apply exec_keeps. by rewrite Hi.
      * apply exec_keeps. by rewrite lookup_insert_eq.
    + destruct (tasks !! j); [| by apply IH].
      destruct (futures !! j); by apply IH.
Qed.

(** Running the tasks in the order of the list is a complete run. *)
Lemma exec_in_order tasks :
  Dask.persisted tasks (Dask.exec tasks (seq 0 (length tasks)) ∅)
  ∧ Dask.finished tasks (Dask.exec tasks (seq 0 (length tasks)) ∅).
Proof.
  split; [apply exec_persisted, rtc_refl |].
  intros i Hlt. apply exec_fills; [| done].
  apply elem_of_seq. lia.
Qed.

(** A complete run has an outcome. *)
Lemma finished_compute tasks futures :
  Dask.persisted tasks futures → Dask.finished tasks futures →
  ∃ r, Dask.compute tasks futures r.
Proof.
  intros Hrun Hfin.
  destruct (Dask.comprehension Dask.run_task tasks) as [values | e] eqn:Hc.
  - exists (Ok values). apply comprehension_ok in Hc.
    apply Forall2_same_length_lookup in Hc as [Hlen Hc].
    constructor; [done |].
    intros i v Hv.
    assert (i < length tasks)%nat as Hlt
        by (rewrite Hlen; by eapply lookup_lt_Some).
    destruct (Hfin i Hlt) as [r Hr].
    destruct (persisted_futures _ _ Hrun i r Hr) as (d & Hd & ->).
    rewrite Hr. f_equal. by apply (Hc i d v).
  - exists (Raise e). apply comprehension_raise in Hc as (i & d & Hd & He).
    assert (i < length tasks)%nat as Hlt by by eapply lookup_lt_Some.
    destruct (Hfin i Hlt) as [r Hr].
    destruct (persisted_futures _ _ Hrun i r Hr) as (d' & Hd' & ->).
    apply (Dask.compute_raise _ _ i); [done | done |].
    rewrite Hr. congruence.
Qed.

(** The outcome of any run of the delayed calls of [f], when it is a
    list of results, is the list that the sequential loop builds. *)
Lemma compute_delayed_sequential f (l : list A) futures
    (r : result (list R)) :
  Dask.persisted (Dask.delayed f <$> l) futures →
  Dask.compute (Dask.delayed f <$> l) futures r →
  ∀ values, r = Ok values ↔ Dask.comprehension f l = Ok values.
Proof.
  intros Hrun Hcomp values.
  assert (∀ i a v, l !! i = Some a → futures !! i = Some v → v = f a) as Hfut.
  { intros i a v Ha Hv.
    destruct (persisted_futures _ _ Hrun i v Hv) as (d & Hd & ->).
    rewrite list_lookup_fmap, Ha in Hd. by injection Hd as <-. }
  rewrite comprehension_ok.
  destruct Hcomp as [values' Hlen Hvals | i e Hfin Hlt Hi].
  - rewrite length_fmap in Hlen.
    assert (Forall2 (λ a v, f a = Ok v) l values') as Hseq.
    { apply Forall2_same_length_lookup. split; [done |].
      intros i a v Ha Hv. symmetry. by apply (Hfut i a (Ok v)), Hvals. }
    split; [by intros [= <-] |].
    intros Hseq'. f_equal.
    apply list_eq_same_length with (length l);
      [symmetry; by eapply Forall2_length | done |].
    intros i v v' _ Hv Hv'.
    destruct (lookup_lt_is_Some_2 l i) as [a Ha];
      [rewrite <- Hlen; by eapply lookup_lt_Some |].
    pose proof (Forall2_lookup_lr _ _ _ _ _ _ Hseq Ha Hv) as E1.
    pose proof (Forall2_lookup_lr _ _ _ _ _ _ Hseq' Ha Hv') as E2.
    simpl in *. congruence.
  - split; [done |]. intros Hseq. exfalso.
    rewrite length_fmap in Hlt.
    destruct (lookup_lt_is_Some_2 l i Hlt) as [a Ha].
    destruct (Forall2_lookup_l _ _ _ _ _ Hseq Ha) as (v & _ & Hfa).
    specialize (Hfut i a _ Ha Hi). simpl in *. congruence.
Qed.

End DaskProofs.

(** C9: the cell that loads the scenes calls [dask.delayed], the delayed
    [get_item], [dask.persist] and [dask.compute] and nothing else; the run
    completes, and whatever the order in which the cluster finishes the
    tasks, [dask.compute] returns a list of (data, labels) pairs exactly
    when the sequential loop over the label items does, and then the same
    list. *)
Theorem load_scenes_parallel {Item Shape : Type} `{!Stac Item Shape}
    (w : Services Item) (label_items sentinel_items : list Item)
    (assets : list string) :
  let tasks := load_scenes_delayed w label_items sentinel_items assets in
  (flat_map Nb.stmt_calls ∘ Nb.cell_body) <$> Nb.segmentation !! 23%nat
  = Some [ Some ["dask"; "delayed"]; Some ["get_item_"];
           Some ["dask"; "persist"]; Some ["dask"; "compute"] ]
  ∧ (∃ futures r, Dask.persisted tasks futures ∧ Dask.compute tasks futures r)
  ∧ ∀ futures r,
      Dask.persisted tasks futures →
      Dask.compute tasks futures r →
      ∀ Xys, r = Ok Xys
             ↔ load_scenes_sequential w label_items sentinel_items assets
               = Ok Xys.
Proof.
  intros tasks. split; [vm_compute; reflexivity |]. split.
  - destruct (exec_in_order tasks) as [Hrun Hfin].
    destruct (finished_compute tasks _ Hrun Hfin) as [r Hr].
    by exists (Dask.exec tasks (seq 0 (length tasks)) ∅), r.
  - intros futures r Hrun Hcomp.
    by apply (compute_delayed_sequential _ label_items futures).
Qed.

Lemma load_scenes_parallel_witness :
  let scenes := [Rect.half_clear; Rect.full_cloudy; Rect.full_hazy] in
  let bands := ["B03"; "B04"; "B05"] in
  let tasks :=
    load_scenes_delayed World.live [Rect.chip; chip_east] scenes bands in
  let futures := Dask.exec tasks [1; 0]%nat ∅ in
  Dask.persisted tasks futures
  ∧ Dask.compute tasks futures (Ok [live_pair; live_pair])
  ∧ load_scenes_sequential World.live [Rect.chip; chip_east] scenes bands
    = Ok [live_pair; live_pair].
Proof.
  intros scenes bands tasks futures.
  assert (Dask.persisted tasks futures) as Hrun
      by apply exec_persisted, rtc_refl.
  assert (Dask.compute tasks futures (Ok [live_pair; live_pair])) as Hcomp.
  { constructor; [reflexivity |].
    intros [| [| i]] v; simpl; [| | done]; intros [= <-];
      vm_compute; reflexivity. }
  split; [exact Hrun |]. split; [exact Hcomp |].
  apply (proj2 (proj2 (load_scenes_parallel World.live [Rect.chip; chip_east]
                         scenes bands)) futures _ Hrun Hcomp).
  reflexivity.
Defined.

Example load_scenes_failure :
  load_scenes_sequential World.live [Rect.chip; Rect.point_chip]
    [Rect.full_hazy] ["B03"]
  = Raise ZeroDivisionError.
Proof. vm_compute. reflexivity. Qed.

(** ** The deployment *)

Example make_recipes :
  (λ r, (Make.target r, Make.program <$> Make.recipe r))
    <$> Make.rules Make.Makefile
  = [ ("group", ["az"]); ("cluster", ["az"; "az"]);
      ("userpools", ["#"; "az"]); ("storage", ["az"; "az"]);
      ("hub", ["helm"]); ("scale", ["az"]); ("clean", ["az"]) ].
Proof. vm_compute. reflexivity. Qed.

(** C7: the Makefile has exactly the targets group, cluster, userpools,
    storage, hub, scale and clean, and every command of every recipe
    invokes [az] or [helm]. *)
Theorem makefile_targets :
  Make.targets_of Make.Makefile
  = ["group"; "cluster"; "userpools"; "storage"; "hub"; "scale"; "clean"]
  ∧ Forall (λ r, Forall (λ c, Make.program c = "az"
                              ∨ Make.program c = "helm")
                        (Make.commands r))
           (Make.rules Make.Makefile).
Proof.
  split; [vm_compute; reflexivity |].
  vm_compute.
  repeat match goal with
         | |- Forall _ _ => constructor
         | |- _ ∨ _ => first [left; reflexivity | right; reflexivity]
         end.
Qed.


(** ** The notebooks *)

(** C10: in the exploratory notebook the catalog of labels is opened
    first, then an item is fetched, its raster is loaded, the Planetary
    Computer's catalog is searched, the imagery is reprojected and cropped,
    and the estimator is fitted (and later asked to predict from the
    arrays); and run from top to bottom no statement reads a name before a
    statement that binds it. *)
Theorem explore_in_order :
  (λ callee, Nb.first_call callee Nb.explore) <$> explore_flow
  = [Some 3; Some 7; Some 16; Some 24; Some 35; Some 54]%nat
  ∧ increasing ((λ callee, Nb.first_call callee Nb.explore) <$> explore_flow)
    = true
  ∧ Nb.first_call ["clf"; "predict"] Nb.explore = Some 62%nat
  ∧ Nb.runs_in_order Nb.explore = true.
Proof. repeat split; vm_compute; reflexivity. Qed.

Example find_match_calls :
  flat_map Nb.stmt_calls (Nb.body_of "find_match" Nb.segmentation)
  = [ Some ["shapely"; "geometry"; "shape"];
      Some ["shapely"; "geometry"; "shape"; "()"; "intersection"];
      Some ["shapely"; "geometry"; "shape"];
      Some ["sorted"];
      Some ["pystac"; "extensions"; "eo"; "EOExtension"; "ext"] ].
Proof. vm_compute. reflexivity. Qed.

Example get_item_calls :
  flat_map Nb.stmt_calls (Nb.body_of "get_item" Nb.segmentation)
  = [ Some ["list"];
      Some ["rioxarray"; "open_rasterio"; "()"; "squeeze"];
      Some ["rioxarray"; "open_rasterio"];
      Some ["find_match"];
      Some ["tuple"]; Some ["round"]; Some ["labels"; "rio"; "bounds"];
      Some ["stackstac"; "stack"; "()"; "squeeze"; "()"; "compute"];
      Some ["stackstac"; "stack"; "()"; "squeeze"];
      Some ["stackstac"; "stack"];
      Some ["planetary_computer"; "sign"; "()"; "to_dict"];
      Some ["planetary_computer"; "sign"];
      Some ["labels"; "rio"; "crs"; "to_epsg"];
      Some ["data"; "assign_coords"];
      Some ["np"; "clip"];
      Some ["labels"; "astype"] ].
Proof. vm_compute. reflexivity. Qed.



(** * Further properties

    ** The choice of a scene *)

Section SortedFirst.

Context {A : Type} (key : A → Q).


End SortedFirst.



Section FindMatchMore.

Context {Item Shape : Type} `{!Stac Item Shape}.



(** X3: on a label whose shape has no area, [find_match] raises
    [IndexError] for an empty list of candidates and [ZeroDivisionError]
    for any other list; it never returns. *)
Theorem find_match_no_area (label_item : Item) (sentinel_items : list Item) :
  area (item_shape label_item) == 0 →
  find_match label_item sentinel_items
  = Raise (match sentinel_items with
           | [] => IndexError
           | _ :: _ => ZeroDivisionError
           end).
Proof.
  intros Hz. destruct sentinel_items as [| item rest].
  - reflexivity.
  - by apply find_match_zero_area.
Qed.


(** X5: a candidate that does not qualify has no part in the choice:
    with it or without it in the list, [find_match] gives the same. *)
Theorem find_match_ignores_unqualified (label_item : Item)
    (before after : list Item) (item : Item) :
  ¬ area (item_shape label_item) == 0 →
  ¬ qualifies label_item item →
  find_match label_item (before ++ item :: after)
  = find_match label_item (before ++ after).
Proof.
  intros Hne Hq. rewrite !find_match_filter_sort by done.
  rewrite !List.filter_app. simpl.
  destruct (Py.Qltb 0.9 (coverage label_item item)) eqn:E; [| done].
  by apply Qltb_lt in E.
Qed.

End FindMatchMore.



Lemma find_match_no_area_witness :
  area (item_shape Rect.point_chip) == 0
  ∧ find_match Rect.point_chip [Rect.full_hazy; Rect.full_cloudy]
    = Raise ZeroDivisionError.
Proof.
  assert (area (item_shape Rect.point_chip) == 0) as Hz
      by (vm_compute; reflexivity).
  split; [exact Hz |].
  exact (find_match_no_area Rect.point_chip
           [Rect.full_hazy; Rect.full_cloudy] Hz).
Defined.


Lemma find_match_ignores_unqualified_witness :
  ¬ area (item_shape Rect.chip) == 0
  ∧ ¬ qualifies Rect.chip Rect.half_clear
  ∧ find_match Rect.chip ([Rect.full_cloudy] ++ Rect.half_clear :: [Rect.full_hazy])
    = find_match Rect.chip ([Rect.full_cloudy] ++ [Rect.full_hazy]).
Proof.
  assert (¬ area (item_shape Rect.chip) == 0) as Hne
      by (vm_compute; discriminate).
  assert (¬ qualifies Rect.chip Rect.half_clear) as Hq
      by (vm_compute; intros [=]).
  split; [exact Hne |]. split; [exact Hq |].
  exact (find_match_ignores_unqualified Rect.chip [Rect.full_cloudy]
           [Rect.full_hazy] Rect.half_clear Hne Hq).
Defined.

(** ** More on [get_item] *)

Lemma wrap_int64_small (z : Z) :
  (- 2 ^ 63 ≤ z < 2 ^ 63)%Z → Xr.wrap_int64 z = z.
Proof. intros Hz. unfold Xr.wrap_int64. rewrite Z.mod_small; lia. Qed.

Lemma clip_div_rescaled (v : f32) :
  rescaled v (Xr.clip_elem 0 1 (Xr.div_scalar 4000 v)).
Proof.
  destruct v as [q | | |]; simpl; try reflexivity.
  eexists. split; [reflexivity |].
  assert (q / 4000 == q * (1 # 4000)) as Hdiv by reflexivity.
  repeat split.
  - intros Hq. rewrite Q.max_r by (rewrite Hdiv; lra).
    apply Q.min_l. lra.
  - intros [H0 H1]. rewrite Q.max_l by (rewrite Hdiv; lra).
    apply Q.min_l. rewrite Hdiv. lra.
  - intros Hq. rewrite Q.max_l by (rewrite Hdiv; lra).
    apply Q.min_r. rewrite Hdiv. lra.
Qed.

Section GetItemMore.

Context {Item Shape : Type} `{!Stac Item Shape}.

(** X6: [get_item] raises [KeyError] exactly when the label item has no
    asset named [labels], and then the key is [labels]; no service is
    asked and no scene is looked at before that. *)
Theorem get_item_key_error (w : Services Item) (label_item : Item)
    (sentinel_items : list Item) (assets : list string) (key : string) :
  get_item w label_item sentinel_items assets = Raise (KeyError key)
  ↔ assets_href label_item !! "labels" = None ∧ key = "labels"%string.
Proof.
  split.
  - intros [[Hnone [= ->]] | [Hf | [_ [=]]]]%get_item_raises; [done |].
    by apply find_match_raises in Hf as [[=] | [=]].
  - intros [Hnone ->]. unfold get_item, Py.getitem. by rewrite Hnone.
Qed.

(** X7: the imagery that [get_item] returns carries the coordinate labels
    of the label chip, whatever those of the stack were, and the labels
    come back with the chip's values, unchanged when they fit in 64 bits. *)
Theorem get_item_coords (w : Services Item) (label_item : Item)
    (sentinel_items : list Item) (assets : list string)
    (out : DataArray f32 * DataArray Z) :
  get_item w label_item sentinel_items assets = Ok out →
  ∃ href,
    assets_href label_item !! "labels" = Some href
    ∧ let labels := Xr.squeeze (open_rasterio w href) in
      x out.1 = x labels ∧ y out.1 = y labels
      ∧ x out.2 = x labels ∧ y out.2 = y labels
      ∧ data out.2 = Xr.wrap_int64 <$> data (open_rasterio w href)
      ∧ (Forall (λ z, - 2 ^ 63 ≤ z < 2 ^ 63)%Z (data (open_rasterio w href)) →
         data out.2 = data (open_rasterio w href)).
Proof.
  intros (href & s & Hh & _ & _ & ->)%get_item_returns.
  exists href. split; [exact Hh |]. simpl.
  repeat split; try reflexivity.
  intros Hfit. induction Hfit as [| z l Hz _ IH]; [done |].
  rewrite fmap_cons, IH. by rewrite wrap_int64_small.
Qed.

(** X8: pixel by pixel, the imagery that [get_item] returns is the stack
    rescaled: a value up to 0 becomes 0, a value from 4000 on becomes 1, a
    value between them is divided by 4000, and NaN stays NaN. *)
Theorem get_item_rescales (w : Services Item) (label_item : Item)
    (sentinel_items : list Item) (assets : list string)
    (out : DataArray f32 * DataArray Z) :
  get_item w label_item sentinel_items assets = Ok out →
  ∃ href sentinel_item,
    assets_href label_item !! "labels" = Some href
    ∧ find_match label_item sentinel_items = Ok sentinel_item
    ∧ let labels := Xr.squeeze (open_rasterio w href) in
      Forall2 rescaled
        (data (stack w (sign w sentinel_item) assets "float32" 10
                     (round_bounds (rio_bounds labels)) (rio_epsg labels)))
        (data out.1).
Proof.
  intros (href & s & Hh & Hs & _ & ->)%get_item_returns.
  exists href, s. split; [exact Hh |]. split; [exact Hs |]. simpl.
  rewrite <- list_fmap_compose.
  apply Forall2_fmap_r, Forall_Forall2_diag, Forall_true.
  intros v. apply clip_div_rescaled.
Qed.

(** X9: with a label raster of one band of [h] by [wd] pixels and a stack
    of one time step and one band per asset, [get_item] fails its [assert]
    exactly when it is asked for a single asset: [squeeze] then drops the
    band axis too and the shapes no longer match. *)
Theorem get_item_single_asset (w : Services Item) (label_item : Item)
    (sentinel_items : list Item) (assets : list string) (href : string)
    (sentinel_item : Item) (h wd : nat) :
  assets_href label_item !! "labels" = Some href →
  find_match label_item sentinel_items = Ok sentinel_item →
  h ≠ 1%nat → wd ≠ 1%nat →
  shape (open_rasterio w href) = [1; h; wd]%nat →
  shape (stack w (sign w sentinel_item) assets "float32" 10
               (round_bounds (rio_bounds (open_rasterio w href)))
               (rio_epsg (open_rasterio w href)))
  = [1; length assets; h; wd]%nat →
  (length assets = 1%nat →
   get_item w label_item sentinel_items assets = Raise AssertionError)
  ∧ (length assets ≠ 1%nat →
     returns (get_item w label_item sentinel_items assets)).
Proof.
  intros Hh Hs Hh1 Hw1 Hlabels Hstack.
  unfold get_item, Py.getitem. rewrite Hh. simpl. rewrite Hs. simpl.
  rewrite Hlabels, Hstack.
  assert (filter (λ n : nat, n ≠ 1%nat) [1; h; wd]%nat = [h; wd]) as ->.
  { rewrite filter_cons_False by (intros ?; done).
    rewrite filter_cons_True by done. rewrite filter_cons_True by done.
    done. }
  split.
  - intros ->.
    assert (filter (λ n : nat, n ≠ 1%nat) [1; 1; h; wd]%nat = [h; wd]) as ->.
    { do 2 rewrite filter_cons_False by (intros ?; done).
      rewrite filter_cons_True by done. rewrite filter_cons_True by done.
      done. }
    simpl. case_decide as E; [| done]. by injection E.
  - intros Hn.
    assert (filter (λ n : nat, n ≠ 1%nat) [1; length assets; h; wd]%nat
            = [length assets; h; wd]) as ->.
    { rewrite filter_cons_False by (intros ?; done).
      do 3 rewrite filter_cons_True by done. done. }
    simpl. case_decide; [| done]. by eexists.
Qed.

End GetItemMore.

Lemma get_item_coords_witness :
  get_item World.live Rect.chip [Rect.full_hazy] ["B03"; "B04"; "B05"]
  = Ok live_pair
  ∧ ∃ href,
      assets_href Rect.chip !! "labels" = Some href
      ∧ let labels := Xr.squeeze (open_rasterio World.live href) in
        x live_pair.1 = x labels ∧ y live_pair.1 = y labels
        ∧ x live_pair.2 = x labels ∧ y live_pair.2 = y labels
        ∧ data live_pair.2
          = Xr.wrap_int64 <$> data (open_rasterio World.live href)
        ∧ (Forall (λ z, - 2 ^ 63 ≤ z < 2 ^ 63)%Z
                  (data (open_rasterio World.live href)) →
           data live_pair.2 = data (open_rasterio World.live href)).
Proof.
  assert (get_item World.live Rect.chip [Rect.full_hazy]
            ["B03"; "B04"; "B05"] = Ok live_pair) as Hrun
      by (vm_compute; reflexivity).
  split; [exact Hrun |].
  exact (get_item_coords World.live Rect.chip [Rect.full_hazy]
           ["B03"; "B04"; "B05"] live_pair Hrun).
Defined.

Lemma get_item_rescales_witness :
  get_item World.full Rect.chip [Rect.full_hazy] ["B03"; "B04"; "B05"]
  = Ok (Xr.clip (Xr.idiv (Xr.assign_coords
                            (Xr.squeeze (World.scene_stack (Fin 100)))
                            [5; 15] [15; 5]) 4000) 0 1,
        Xr.astype_int64 (Xr.squeeze World.label_raster))
  ∧ ∃ href sentinel_item,
      assets_href Rect.chip !! "labels" = Some href
      ∧ find_match Rect.chip [Rect.full_hazy] = Ok sentinel_item
      ∧ let labels := Xr.squeeze (open_rasterio World.full href) in
        Forall2 rescaled
          (data (stack World.full (sign World.full sentinel_item)
                       ["B03"; "B04"; "B05"] "float32" 10
                       (round_bounds (rio_bounds labels)) (rio_epsg labels)))
          (Xr.clip_elem 0 1 <$> (Xr.div_scalar 4000
                                   <$> data (World.scene_stack (Fin 100)))).
Proof.
  assert (get_item World.full Rect.chip [Rect.full_hazy]
            ["B03"; "B04"; "B05"]
          = Ok (Xr.clip (Xr.idiv (Xr.assign_coords
                                    (Xr.squeeze (World.scene_stack (Fin 100)))
                                    [5; 15] [15; 5]) 4000) 0 1,
                Xr.astype_int64 (Xr.squeeze World.label_raster))) as Hrun
      by (vm_compute; reflexivity).
  split; [exact Hrun |].
  exact (get_item_rescales World.full Rect.chip [Rect.full_hazy]
           ["B03"; "B04"; "B05"] _ Hrun).
Defined.

Lemma get_item_single_asset_witness :
  assets_href Rect.chip !! "labels" = Some "chip/labels.tif"%string
  ∧ find_match Rect.chip [Rect.full_hazy] = Ok Rect.full_hazy
  ∧ shape (open_rasterio World.live "chip/labels.tif") = [1; 2; 2]%nat
  ∧ shape (stack World.live (sign World.live Rect.full_hazy)
                 ["B03"; "B04"; "B05"] "float32" 10
                 (round_bounds
                    (rio_bounds (open_rasterio World.live "chip/labels.tif")))
                 (rio_epsg (open_rasterio World.live "chip/labels.tif")))
    = [1; length ["B03"; "B04"; "B05"]; 2; 2]%nat
  ∧ returns (get_item World.live Rect.chip [Rect.full_hazy]
               ["B03"; "B04"; "B05"]).
Proof.
  assert (assets_href Rect.chip !! "labels" = Some "chip/labels.tif"%string)
    as Hh by (vm_compute; reflexivity).
  assert (find_match Rect.chip [Rect.full_hazy] = Ok Rect.full_hazy) as Hs
      by (vm_compute; reflexivity).
  split; [exact Hh |]. split; [exact Hs |].
  split; [reflexivity |]. split; [reflexivity |].
  apply (get_item_single_asset World.live Rect.chip [Rect.full_hazy]
           ["B03"; "B04"; "B05"] "chip/labels.tif" Rect.full_hazy 2 2
           Hh Hs); [lia | lia | reflexivity | reflexivity |].
  simpl. lia.
Defined.

(** ** More on the option handler *)

Lemma prefix_append (needle s : string) :
  String.prefix needle s = true ↔ ∃ post, s = needle +:+ post.
Proof.
  revert s. induction needle as [| a needle IH]; intros s.
  - split; [intros _; by exists s | intros _; by destruct s].
  - destruct s as [| b s]; simpl; [split; [done | by intros [post [=]]] |].
    destruct (Ascii.ascii_dec a b) as [-> | Hne].
    + rewrite IH. split; intros [post E]; exists post.
      * by rewrite E.
      * change (String b s = String b (needle +:+ post)) in E. congruence.
    + split; [done |]. intros [post E].
      change (String b s = String a (needle +:+ post)) in E. congruence.
Qed.

(** [needle in s] holds exactly when [s] has [needle] somewhere inside. *)
Lemma contains_append (needle s : string) :
  Py.contains needle s = true ↔ ∃ pre post, s = pre +:+ needle +:+ post.
Proof.
  induction s as [| c s IH].
  - change (Py.contains needle EmptyString)
      with (if String.prefix needle EmptyString then true else false).
    destruct (String.prefix needle EmptyString) eqn:E.
    + apply prefix_append in E as [post E]. split; [| done].
      intros _. by exists EmptyString, post.
    + split; [done |]. intros (pre & post & Hs).
      destruct pre; [| done]. simpl in Hs.
      assert (String.prefix needle EmptyString = true)
        by (apply prefix_append; by exists post).
      congruence.
  - change (Py.contains needle (String c s))
      with (if String.prefix needle (String c s) then true
            else Py.contains needle s).
    destruct (String.prefix needle (String c s)) eqn:E.
    + apply prefix_append in E as [post E]. split; [| done].
      intros _. by exists EmptyString, post.
    + rewrite IH. split.
      * intros (pre & post & ->). by exists (String c pre), post.
      * intros (pre & post & Hs). destruct pre as [| c' pre].
        -- simpl in Hs.
           assert (String.prefix needle (String c s) = true)
             by (apply prefix_append; by exists post).
           congruence.
        -- injection Hs as _ ->. by exists pre, post.
Qed.

Section GatewayMore.

Import Gateway.

(** X10: [option_handler] returns exactly for the images that have a colon
    somewhere, [pre:post]: an empty tag, or a colon in the registry's host
    and port with no tag after it, passes the check as well. *)
Theorem option_handler_accepts (options : Options) :
  returns (option_handler options)
  ↔ ∃ pre post, image options = pre +:+ ":" +:+ post.
Proof.
  rewrite <- contains_append. unfold option_handler, returns.
  destruct (Py.contains ":" (image options)); simpl.
  - split; [done | by eexists].
  - split; [by intros [d [=]] | done].
Qed.

(** X11: the CPU request of a worker is 0.44 of the cores asked for up to
    two cores and 0.88 of a core from two cores on: it never exceeds 0.88,
    however many cores the limit allows. *)
Theorem option_handler_cores_capped (options : Options)
    (d : gmap string value) :
  option_handler options = Ok d →
  ∃ cores : Q,
    d !! "worker_cores" = Some (VFloat cores)
    ∧ (worker_cores options <= 2 → cores == 0.44 * worker_cores options)
    ∧ (2 <= worker_cores options → cores == 0.88)
    ∧ cores <= 0.88.
Proof.
  unfold option_handler.
  destruct (Py.contains ":" (image options)) eqn:Htag; [| done].
  intros [= <-].
  eexists. split; [by simplify_map_eq |].
  pose proof (py_min_Qmin (worker_cores options / 2) 1) as Hmin.
  assert (worker_cores options / 2 == worker_cores options * (1 # 2)) as Hhalf
      by reflexivity.
  repeat split.
  - intros Hle. rewrite Hmin, Q.min_l by (rewrite Hhalf; lra).
    rewrite Hhalf. lra.
  - intros Hle. rewrite Hmin, Q.min_r by (rewrite Hhalf; lra). lra.
  - rewrite Hmin. pose proof (Q.le_min_r (worker_cores options / 2) 1). lra.
Qed.


(** X13: the dict that [option_handler] returns has the six keys
    [worker_cores], [worker_cores_limit], [worker_memory],
    [worker_memory_limit], [image] and [environment] and no other, and the
    image and the environment are those asked for. *)
Theorem option_handler_keys (options : Options) (d : gmap string value) :
  option_handler options = Ok d →
  dom d = {[ "worker_cores"; "worker_cores_limit"; "worker_memory";
             "worker_memory_limit"; "image"; "environment" ]}
  ∧ d !! "image" = Some (VStr (image options))
  ∧ d !! "environment" = Some (VDict (environment options)).
Proof.
  unfold option_handler.
  destruct (Py.contains ":" (image options)) eqn:Htag; [| done].
  intros [= <-].
  split; [| split; by simplify_map_eq].
  rewrite !dom_insert_L, dom_empty_L. set_solver.
Qed.

End GatewayMore.

Lemma option_handler_cores_capped_witness :
  let options := Gateway.mkOptions 16 32 "pangeo/pangeo-notebook:latest" ∅ in
  ∃ d, Gateway.option_handler options = Ok d
       ∧ ∃ cores : Q,
           d !! "worker_cores" = Some (Gateway.VFloat cores)
           ∧ (Gateway.worker_cores options <= 2 →
              cores == 0.44 * Gateway.worker_cores options)
           ∧ (2 <= Gateway.worker_cores options → cores == 0.88)
           ∧ cores <= 0.88.
Proof.
  intros options. eexists. split; [reflexivity |].
  exact (option_handler_cores_capped options _ eq_refl).
Defined.


Lemma option_handler_keys_witness :
  let options := Gateway.mkOptions 1 2 "pangeo/pangeo-notebook:latest" ∅ in
  ∃ d, Gateway.option_handler options = Ok d
       ∧ dom d = {[ "worker_cores"; "worker_cores_limit"; "worker_memory";
                    "worker_memory_limit"; "image"; "environment" ]}
       ∧ d !! "image" = Some (Gateway.VStr (Gateway.image options))
       ∧ d !! "environment"
         = Some (Gateway.VDict (Gateway.environment options)).
Proof.
  intros options. eexists. split; [reflexivity |].
  exact (option_handler_keys options _ eq_refl).
Defined.

Example option_handler_port_without_tag :
  returns (Gateway.option_handler
             (Gateway.mkOptions 1 2 "localhost:5000/pangeo-notebook" ∅)).
Proof. by eexists. Qed.

Example option_handler_negative_cores :
  Gateway.option_handler
    (Gateway.mkOptions (-1) 2 "pangeo/pangeo-notebook:latest" ∅)
  = Ok (<["worker_cores" := Gateway.VFloat (0.88 * Py.min (-1 / 2) 1)]>
       (<["worker_cores_limit" := Gateway.VFloat (-1)]>
       (<["worker_memory" := Gateway.VStr "1.900000G"]>
       (<["worker_memory_limit" := Gateway.VStr "2.000000G"]>
       (<["image" := Gateway.VStr "pangeo/pangeo-notebook:latest"]>
       (<["environment" := Gateway.VDict ∅]> ∅))))))
  ∧ ¬ 0.88 * Py.min (-1 / 2) 1 <= -1.
Proof. split; [reflexivity | vm_compute; by intros H; apply H]. Qed.

(** ** The bounding box of the search *)

Lemma foldl_Qmin_le (l : list Q) (a : Q) :
  foldl Qmin a l <= a ∧ Forall (λ b, foldl Qmin a l <= b) l.
Proof.
  revert a. induction l as [| b l IH]; intros a; simpl.
  - split; [lra | constructor].
  - destruct (IH (Qmin a b)) as [Hhead Hrest].
    pose proof (Q.le_min_l a b). pose proof (Q.le_min_r a b).
    split; [lra |]. constructor; [lra | done].
Qed.

Lemma foldl_Qmax_ge (l : list Q) (a : Q) :
  a <= foldl Qmax a l ∧ Forall (λ b, b <= foldl Qmax a l) l.
Proof.
  revert a. induction l as [| b l IH]; intros a; simpl.
  - split; [lra | constructor].
  - destruct (IH (Qmax a b)) as [Hhead Hrest].
    pose proof (Q.le_max_l a b). pose proof (Q.le_max_r a b).
    split; [lra |]. constructor; [lra | done].
Qed.

Lemma foldl_Qmin_attained (l : list Q) (a : Q) :
  Exists (λ b, foldl Qmin a l == b) (a :: l).
Proof.
  revert a. induction l as [| b l IH]; intros a; simpl.
  - by left.
  - specialize (IH (Qmin a b)).
    apply Exists_cons in IH as [Hhead | Hrest].
    + destruct (Q.min_spec a b) as [[_ E] | [_ E]].
      * left. by apply Qeq_trans with (Qmin a b).
      * right. left. by apply Qeq_trans with (Qmin a b).
    + right. by right.
Qed.

Lemma foldl_Qmax_attained (l : list Q) (a : Q) :
  Exists (λ b, foldl Qmax a l == b) (a :: l).
Proof.
  revert a. induction l as [| b l IH]; intros a; simpl.
  - by left.
  - specialize (IH (Qmax a b)).
    apply Exists_cons in IH as [Hhead | Hrest].
    + destruct (Q.max_spec a b) as [[_ E] | [_ E]].
      * right. left. by apply Qeq_trans with (Qmax a b).
      * left. by apply Qeq_trans with (Qmax a b).
    + right. by right.
Qed.

(** Each column of the reduction is the reduction of that column. *)
Lemma foldl_zip4 (op : Q → Q → Q) (rows : list bbox) (row : bbox) :
  foldl (zip4 op) row rows
  = (foldl op row.1.1.1 ((λ b : bbox, b.1.1.1) <$> rows),
     foldl op row.1.1.2 ((λ b : bbox, b.1.1.2) <$> rows),
     foldl op row.1.2 ((λ b : bbox, b.1.2) <$> rows),
     foldl op row.2 ((λ b : bbox, b.2) <$> rows)).
Proof.
  revert row. induction rows as [| r rows IH]; intros row.
  - by destruct row as [[[? ?] ?] ?].
  - simpl. rewrite IH.
    by destruct row as [[[? ?] ?] ?], r as [[[? ?] ?] ?].
Qed.

(** X14: the bounding box that the segmentation notebook searches with
    contains the box of every label chip and is the least such box (each
    of its sides is a side of some chip); with no label chip at all the
    reduction raises [ValueError]. *)
Theorem search_bbox_covers (bboxes : list bbox) :
  (∀ e, search_bbox bboxes = Raise e
        ↔ bboxes = []
          ∧ e = ValueError ("zero-size array to reduction operation "
                            +:+ "minimum which has no identity"))
  ∧ ∀ box, search_bbox bboxes = Ok box →
      Forall (λ b, bbox_inside b box) bboxes
      ∧ Exists (λ b : bbox, box.1.1.1 == b.1.1.1) bboxes
      ∧ Exists (λ b : bbox, box.1.1.2 == b.1.1.2) bboxes
      ∧ Exists (λ b : bbox, box.1.2 == b.1.2) bboxes
      ∧ Exists (λ b : bbox, box.2 == b.2) bboxes.
Proof.
  destruct bboxes as [| row rows].
  - split; [| done]. intros e. split; [by intros [= <-] | by intros [_ ->]].
  - split; [intros e; split; [done | by intros [[=] _]] |].
    intros box. unfold search_bbox. simpl. rewrite !foldl_zip4. simpl.
    intros [= <-]. simpl.
    pose proof (foldl_Qmin_le ((λ b : bbox, b.1.1.1) <$> rows) row.1.1.1)
      as [Hw Hws].
    pose proof (foldl_Qmin_le ((λ b : bbox, b.1.1.2) <$> rows) row.1.1.2)
      as [Hs Hss].
    pose proof (foldl_Qmax_ge ((λ b : bbox, b.1.2) <$> rows) row.1.2)
      as [He Hes].
    pose proof (foldl_Qmax_ge ((λ b : bbox, b.2) <$> rows) row.2)
      as [Hn Hns].
    rewrite Forall_fmap in Hws, Hss, Hes, Hns.
    split; [| repeat split].
    + constructor; [done |].
      rewrite Forall_forall in Hws, Hss, Hes, Hns. apply Forall_forall.
      intros b Hb. by repeat split; [apply Hws | apply Hss | apply Hes | apply Hns].
    + pose proof (foldl_Qmin_attained ((λ b : bbox, b.1.1.1) <$> rows)
                    row.1.1.1) as H.
      by rewrite <- (fmap_cons (λ b : bbox, b.1.1.1)), Exists_fmap in H.
    + pose proof (foldl_Qmin_attained ((λ b : bbox, b.1.1.2) <$> rows)
                    row.1.1.2) as H.
      by rewrite <- (fmap_cons (λ b : bbox, b.1.1.2)), Exists_fmap in H.
    + pose proof (foldl_Qmax_attained ((λ b : bbox, b.1.2) <$> rows)
                    row.1.2) as H.
      by rewrite <- (fmap_cons (λ b : bbox, b.1.2)), Exists_fmap in H.
    + pose proof (foldl_Qmax_attained ((λ b : bbox, b.2) <$> rows)
                    row.2) as H.
      by rewrite <- (fmap_cons (λ b : bbox, b.2)), Exists_fmap in H.
Qed.

Example search_bbox_two_chips :
  search_bbox [(18, -33, 18.5, -32.5); (18.25, -33.5, 19, -33)]
  = Ok (Qmin 18 18.25, Qmin (-33) (-33.5), Qmax 18.5 19, Qmax (-32.5) (-33)).
Proof. reflexivity. Qed.

(** ** Indexing *)

Lemma py_index_in_range {A} (l : list A) (i : nat) (a : A) :
  l !! i = Some a →
  py_index l (Z.of_nat i) = Ok a
  ∧ py_index l (Z.of_nat i - Z.of_nat (length l)) = Ok a.
Proof.
  intros Hi. pose proof (lookup_lt_Some _ _ _ Hi) as Hlt.
  unfold py_index. split.
  - destruct (Z.ltb_spec (Z.of_nat i) 0); [lia |].
    destruct (Z.leb_spec 0 (Z.of_nat i)); [| lia].
    destruct (Z.ltb_spec (Z.of_nat i) (Z.of_nat (length l))); [| lia].
    simpl. by rewrite Nat2Z.id, Hi.
  - destruct (Z.ltb_spec (Z.of_nat i - Z.of_nat (length l)) 0); [| lia].
    replace (Z.of_nat i - Z.of_nat (length l) + Z.of_nat (length l))%Z
      with (Z.of_nat i) by lia.
    destruct (Z.leb_spec 0 (Z.of_nat i)); [| lia].
    destruct (Z.ltb_spec (Z.of_nat i) (Z.of_nat (length l))); [| lia].
    simpl. by rewrite Nat2Z.id, Hi.
Qed.

Lemma py_index_returns {A} (l : list A) (idx : Z) (a : A) :
  py_index l idx = Ok a →
  (- Z.of_nat (length l) ≤ idx < Z.of_nat (length l))%Z ∧ a ∈ l.
Proof.
  unfold py_index.
  destruct (Z.ltb_spec idx 0);
    match goal with
    | |- context [(0 <=? ?i)%Z] =>
        destruct (Z.leb_spec 0 i); [| done];
        destruct (Z.ltb_spec i (Z.of_nat (length l))); [| done]; simpl;
        destruct (l !! Z.to_nat i) as [a' |] eqn:Hi; [| done];
        intros [= <-]; (split; [lia | by eapply list_elem_of_lookup_2])
    end.
Qed.

Lemma py_index_out_of_range {A} (l : list A) (idx : Z) :
  (idx < - Z.of_nat (length l) ∨ Z.of_nat (length l) ≤ idx)%Z →
  py_index l idx = Raise IndexError.
Proof.
  intros Hout. destruct (py_index l idx) as [a | e] eqn:E.
  - apply py_index_returns in E as [? _]. lia.
  - revert E. unfold py_index.
    repeat (case_match; try done); by intros [= <-].
Qed.

(** X15: [STACDataset] indexes like the tuple it holds: [dataset[i]] is
    the pair of tensors of the [i]-th scene for [i] from 0 up to the
    length, [dataset[i - len]] is the same pair, and any index outside
    [-len .. len - 1] raises [IndexError]. *)
Theorem dataset_getitem (data : list (DataArray f32 * DataArray Z)) :
  let dataset := STACDataset.__init__ data in
  STACDataset.__len__ dataset = length data
  ∧ (∀ (i : nat) Xy, data !! i = Some Xy →
       STACDataset.__getitem__ dataset (Z.of_nat i)
       = Ok (as_tensor Xy.1, as_tensor Xy.2)
       ∧ STACDataset.__getitem__ dataset
           (Z.of_nat i - Z.of_nat (STACDataset.__len__ dataset))
         = Ok (as_tensor Xy.1, as_tensor Xy.2))
  ∧ (∀ idx : Z,
       returns (STACDataset.__getitem__ dataset idx)
       ↔ (- Z.of_nat (length data) ≤ idx < Z.of_nat (length data))%Z)
  ∧ (∀ idx e, STACDataset.__getitem__ dataset idx = Raise e → e = IndexError).
Proof.
  intros dataset. split; [done |]. split; [| split].
  - intros i Xy Hi. unfold STACDataset.__getitem__, STACDataset.__len__.
    simpl. destruct (py_index_in_range _ _ _ Hi) as [-> ->]. done.
  - intros idx. unfold STACDataset.__getitem__. simpl. split.
    + intros [sample Hs].
      destruct (py_index data idx) as [Xy |] eqn:E; [| done].
      by apply py_index_returns in E as [? _].
    + intros Hin.
      destruct (py_index data idx) as [Xy | e] eqn:E; [by eexists |].
      exfalso.
      destruct (decide (idx < 0)%Z).
      * destruct (lookup_lt_is_Some_2 data
                    (Z.to_nat (idx + Z.of_nat (length data)))) as [Xy HXy];
          [lia |].
        destruct (py_index_in_range _ _ _ HXy) as [_ E'].
        rewrite Z2Nat.id in E' by lia.
        replace (idx + Z.of_nat (length data) - Z.of_nat (length data))%Z
          with idx in E' by lia.
        congruence.
      * destruct (lookup_lt_is_Some_2 data (Z.to_nat idx)) as [Xy HXy];
          [lia |].
        destruct (py_index_in_range _ _ _ HXy) as [E' _].
        rewrite Z2Nat.id in E' by lia. congruence.
  - intros idx e. unfold STACDataset.__getitem__. simpl.
    destruct (py_index data idx) as [Xy | e'] eqn:E; [done |].
    intros [= <-]. revert E. unfold py_index.
    repeat (case_match; try done); by intros [= <-].
Qed.

(** ** From the loaded scenes to the samples *)

Section Samples.

Context {Item Shape : Type} `{!Stac Item Shape}.

Lemma get_item_sample_ok (w : Services Item) (label_item : Item)
    (sentinel_items : list Item) (assets : list string)
    (out : DataArray f32 * DataArray Z) :
  get_item w label_item sentinel_items assets = Ok out →
  sample_ok (as_tensor out.1, as_tensor out.2).
Proof.
  intros (href & s & _ & _ & Hshape & ->)%get_item_returns.
  repeat split; simpl; try done.
  rewrite <- list_fmap_compose. apply Forall_fmap, Forall_true.
  intros v. apply clip_div_unit.
Qed.

(** X16: when the scenes have loaded, the dataset built from them has one
    sample per label item, and every sample that indexing returns has
    imagery values in [[0, 1]] or NaN, labels of dtype int64, and labels of
    the imagery's shape after its first axis. *)
Theorem dataset_samples (w : Services Item) (label_items : list Item)
    (sentinel_items : list Item) (assets : list string)
    (Xys : list (DataArray f32 * DataArray Z)) :
  load_scenes_sequential w label_items sentinel_items assets = Ok Xys →
  let dataset := STACDataset.__init__ Xys in
  STACDataset.__len__ dataset = length label_items
  ∧ ∀ idx sample,
      STACDataset.__getitem__ dataset idx = Ok sample → sample_ok sample.
Proof.
  intros Hload%comprehension_ok dataset. split.
  - symmetry. by eapply Forall2_length.
  - intros idx sample. unfold STACDataset.__getitem__. simpl.
    destruct (py_index Xys idx) as [Xy |] eqn:E; [| done].
    intros [= <-]. apply py_index_returns in E as [_ Hin].
    apply list_elem_of_lookup in Hin as [i Hi].
    destruct (Forall2_lookup_r _ _ _ _ _ Hload Hi) as (label_item & _ & Hrun).
    by eapply get_item_sample_ok.
Qed.

End Samples.

Lemma dataset_samples_witness :
  load_scenes_sequential World.live [Rect.chip; chip_east]
    [Rect.half_clear; Rect.full_cloudy; Rect.full_hazy] ["B03"; "B04"; "B05"]
  = Ok [live_pair; live_pair]
  ∧ let dataset := STACDataset.__init__ [live_pair; live_pair] in
    STACDataset.__len__ dataset = length [Rect.chip; chip_east]
    ∧ ∀ idx sample,
        STACDataset.__getitem__ dataset idx = Ok sample → sample_ok sample.
Proof.
  assert (load_scenes_sequential World.live [Rect.chip; chip_east]
            [Rect.half_clear; Rect.full_cloudy; Rect.full_hazy]
            ["B03"; "B04"; "B05"]
          = Ok [live_pair; live_pair]) as Hload by (vm_compute; reflexivity).
  split; [exact Hload |].
  exact (dataset_samples World.live [Rect.chip; chip_east]
           [Rect.half_clear; Rect.full_cloudy; Rect.full_hazy]
           ["B03"; "B04"; "B05"] [live_pair; live_pair] Hload).
Defined.

Lemma for_each_range (visualize : Tensor f32 → Tensor Z → result unit)
    (dataset : STACDataset.t) (start count : nat) :
  (∀ X y, visualize X y = Ok ()) →
  ((start + count ≤ STACDataset.__len__ dataset)%nat →
   for_each (λ i, Xy ← STACDataset.__getitem__ dataset i;
                  visualize Xy.1 Xy.2)
            (Z.of_nat <$> seq start count) = Ok ())
  ∧ ((0 < count)%nat → (STACDataset.__len__ dataset < start + count)%nat →
     for_each (λ i, Xy ← STACDataset.__getitem__ dataset i;
                    visualize Xy.1 Xy.2)
              (Z.of_nat <$> seq start count) = Raise IndexError).
Proof.
  intros Hvis. revert start. induction count as [| count IH]; intros start.
  - simpl. split; [done | lia].
  - destruct (IH (S start)) as [IHok IHraise].
    change (Z.of_nat <$> seq start (S count))
      with (Z.of_nat start :: (Z.of_nat <$> seq (S start) count)).
    cbn [for_each].
    destruct (decide (start < STACDataset.__len__ dataset)%nat) as [Hlt | Hge].
    + destruct (lookup_lt_is_Some_2 (STACDataset.data dataset) start Hlt)
        as [Xy HXy].
      assert (STACDataset.__getitem__ dataset (Z.of_nat start)
              = Ok (as_tensor Xy.1, as_tensor Xy.2)) as ->.
      { unfold STACDataset.__getitem__.
        by destruct (py_index_in_range _ _ _ HXy) as [-> _]. }
      simpl. rewrite Hvis. simpl.
      split; [intros ?; apply IHok; lia | intros _ ?; apply IHraise; lia].
    + assert (STACDataset.__getitem__ dataset (Z.of_nat start)
              = Raise IndexError) as ->.
      { unfold STACDataset.__getitem__.
        rewrite py_index_out_of_range; [done |].
        unfold STACDataset.__len__ in Hge. lia. }
      simpl. split; [lia | done].
Qed.

(** X17: the loop that plots the first ten samples goes through when the
    dataset has at least ten and raises [IndexError] when it has fewer,
    after plotting those there are. *)
Theorem visualize_first_ten
    (visualize : Tensor f32 → Tensor Z → result unit)
    (dataset : STACDataset.t) :
  (∀ X y, visualize X y = Ok ()) →
  visualize_first 10 visualize dataset
  = if decide (10 ≤ STACDataset.__len__ dataset)%nat then Ok ()
    else Raise IndexError.
Proof.
  intros Hvis. unfold visualize_first, py_range.
  destruct (for_each_range visualize dataset 0 10 Hvis) as [Hok Hraise].
  case_decide; [apply Hok | apply Hraise]; lia.
Qed.

Lemma visualize_first_ten_witness :
  (∀ (X : Tensor f32) (y : Tensor Z), (λ _ _, Ok ()) X y = Ok ())
  ∧ visualize_first 10 (λ _ _, Ok ())
      (STACDataset.__init__ [live_pair; live_pair])
    = Raise IndexError.
Proof.
  split; [reflexivity |].
  exact (visualize_first_ten (λ _ _, Ok ())
           (STACDataset.__init__ [live_pair; live_pair])
           (λ _ _, eq_refl)).
Defined.

(** ** The half-pixel fix of the exploratory notebook *)

Lemma round_half_even_near (q : Q) (z : Z) :
  inject_Z z - (1 # 2) < q < inject_Z z + (1 # 2) →
  Py.round_half_even q = z.
Proof.
  intros [Hlo Hhi].
  pose proof (Qfloor_le q) as Hfl. pose proof (Qlt_floor q) as Hfu.
  rewrite inject_Z_plus in Hfu. change (inject_Z 1) with 1 in Hfu.
  assert (inject_Z (z - 1) == inject_Z z - 1) as Hz.
  { unfold Z.sub. rewrite inject_Z_plus. change (inject_Z (- (1))) with (- (1)).
    lra. }
  assert (Qfloor q = z ∨ Qfloor q = (z - 1)%Z) as [Hf | Hf].
  { assert (Qfloor q < z + 1)%Z.
    { rewrite Zlt_Qlt, inject_Z_plus. change (inject_Z 1) with 1. lra. }
    assert (z - 1 < Qfloor q + 1)%Z.
    { rewrite Zlt_Qlt, inject_Z_plus, Hz. change (inject_Z 1) with 1. lra. }
    lia. }
  - unfold Py.round_half_even. rewrite Hf.
    destruct (Qcompare (q - inject_Z z) (1 # 2)) eqn:E;
      Qcompare_props; [exfalso; lra | done | exfalso; lra].
  - unfold Py.round_half_even. rewrite Hf in *.
    destruct (Qcompare (q - inject_Z (z - 1)) (1 # 2)) eqn:E;
      Qcompare_props; [exfalso; lra | exfalso; lra | lia].
Qed.

Lemma all_equal_Forall2 (a b : list Q) :
  all_equal a b = true ↔ Forall2 Qeq a b.
Proof.
  revert b. induction a as [| v a IH]; intros [| v' b]; simpl;
    try (split; [done | by inversion 1]).
  rewrite andb_true_iff, Qeq_bool_iff, IH. split.
  - intros [? ?]. by constructor.
  - by inversion 1.
Qed.

(** X18: when the label chip's coordinates are whole numbers and each
    coordinate of the stack is half a pixel off, 5 less in [x] and 5 more
    in [y], up to an error below one half, the fix makes the coordinates
    equal and the two [assert]s that follow it pass. *)
Theorem fix_half_pixel_aligns {A B} (data : DataArray A)
    (labels : DataArray B) :
  Forall2 (λ vd vl, ∃ z, vl == inject_Z z
                         ∧ vl - (1 # 2) < vd + 5 < vl + (1 # 2))
          (x data) (x labels) →
  Forall2 (λ vd vl, ∃ z, vl == inject_Z z
                         ∧ vl - (1 # 2) < vd - 5 < vl + (1 # 2))
          (y data) (y labels) →
  check_coords (fix_half_pixel data) labels = Ok ().
Proof.
  intros Hx Hy. unfold check_coords, fix_half_pixel. simpl.
  assert (all_equal ((λ v, Py.round0 (v + 5)) <$> x data) (x labels) = true)
    as ->.
  { apply all_equal_Forall2, Forall2_fmap_l.
    eapply Forall2_impl; [exact Hx |]. simpl.
    intros vd vl (z & Hz & Hnear). unfold Py.round0.
    rewrite (round_half_even_near _ z); [by symmetry | lra]. }
  assert (all_equal ((λ v, Py.round0 (v - 5)) <$> y data) (y labels) = true)
    as ->.
  { apply all_equal_Forall2, Forall2_fmap_l.
    eapply Forall2_impl; [exact Hy |]. simpl.
    intros vd vl (z & Hz & Hnear). unfold Py.round0.
    rewrite (round_half_even_near _ z); [by symmetry | lra]. }
  done.
Qed.

Lemma fix_half_pixel_aligns_witness :
  let stacked := Xr.squeeze (World.scene_stack NaN) in
  let labels := Xr.squeeze World.label_raster in
  Forall2 (λ vd vl, ∃ z, vl == inject_Z z
                         ∧ vl - (1 # 2) < vd + 5 < vl + (1 # 2))
          (x stacked) (x labels)
  ∧ Forall2 (λ vd vl, ∃ z, vl == inject_Z z
                           ∧ vl - (1 # 2) < vd - 5 < vl + (1 # 2))
            (y stacked) (y labels)
  ∧ check_coords (fix_half_pixel stacked) labels = Ok ().
Proof.
  intros stacked labels.
  assert (Forall2 (λ vd vl, ∃ z, vl == inject_Z z
                                 ∧ vl - (1 # 2) < vd + 5 < vl + (1 # 2))
                  (x stacked) (x labels)) as Hx.
  { repeat constructor; [exists 5%Z | exists 15%Z];
      (split; [reflexivity | split; vm_compute; reflexivity]). }
  assert (Forall2 (λ vd vl, ∃ z, vl == inject_Z z
                                 ∧ vl - (1 # 2) < vd - 5 < vl + (1 # 2))
                  (y stacked) (y labels)) as Hy.
  { repeat constructor; [exists 15%Z | exists 5%Z];
      (split; [reflexivity | split; vm_compute; reflexivity]). }
  split; [exact Hx |]. split; [exact Hy |].
  exact (fix_half_pixel_aligns stacked labels Hx Hy).
Defined.

(** ** Running the notebooks and the Makefile *)

(** X19: run from the first cell to the last, the segmentation notebook
    reads no name before it is bound, also inside [find_match],
    [get_item], [STACDataset] and [visualize] at the steps that use them:
    the modules, [find_match], [model] and [device] are bound by then.  The
    same holds of the exploratory notebook. *)
Theorem notebooks_run_with_functions :
  runs_with_functions Nb.segmentation = true
  ∧ runs_with_functions Nb.explore = true
  ∧ (λ s, (default EmptyString (defined_name s), global_reads s))
      <$> List.filter (λ s, bool_decide (is_Some (defined_name s)))
                      (flat_map Nb.cell_body Nb.segmentation)
    = [ ("find_match", ["shapely"; "shapely"; "sorted"; "pystac"]);
        ("get_item", ["list"; "rioxarray"; "find_match"; "tuple"; "round";
                      "stackstac"; "planetary_computer"; "np"]);
        ("STACDataset", ["torch"; "len"; "torch"; "torch"]);
        ("visualize", ["torch"; "device"; "model"; "np"; "np"; "plt";
                       "rasterio"; "np"; "rasterio"]) ].
Proof. repeat split; vm_compute; reflexivity. Qed.

(** Without the cell that builds the model, the cells still read bound
    names only, but [visualize] would read [model] unbound. *)
Example visualize_needs_model :
  let cells := take 27 Nb.segmentation
               ++ drop 30 (take 34 Nb.segmentation) in
  Nb.runs_in_order cells = true ∧ runs_with_functions cells = false.
Proof. split; vm_compute; reflexivity. Qed.

Section MakeRunProofs.

Import MakeRun.

Lemma scan_plain (f : string → string) (s : string) :
  plain s = true → scan f None s = s.
Proof.
  induction s as [| c s IH]; simpl; [done |].
  destruct (Ascii.eqb c dollar); simpl; [done |].
  intros Hs. by rewrite IH.
Qed.

Lemma expand_plain (depth : nat) (val : string → string) (s : string) :
  plain s = true → expand depth val s = s.
Proof. destruct depth; [done |]. apply scan_plain. Qed.

Lemma value_CLUSTER (given : gmap string string) :
  value Make.Makefile given "CLUSTER"
  = default "pangeoCluster" (given !! "CLUSTER").
Proof.
  unfold value. by destruct (given !! "CLUSTER"); vm_compute.
Qed.

Lemma value_GROUP (given : gmap string string) :
  value Make.Makefile given "GROUP" = default "esip2021" (given !! "GROUP").
Proof.
  unfold value. by destruct (given !! "GROUP"); vm_compute.
Qed.

Lemma scan_scale (f : string → string) :
  scan f None
    ("az aks nodepool scale --name=gpumanual --cluster-name=$(CLUSTER) "
     +:+ "--resource-group=$(GROUP) --node-count=NODE_COUNT")
  = "az aks nodepool scale --name=gpumanual --cluster-name="
    +:+ f "CLUSTER" +:+ " --resource-group="
    +:+ f "GROUP" +:+ " --node-count=NODE_COUNT".
Proof. vm_compute. reflexivity. Qed.

(** X20: [make scale] does not read [NODE_COUNT]: whatever the
    environment sets, the command it runs ends in the literal text
    [--node-count=NODE_COUNT]; only [CLUSTER] and [GROUP] are expanded. *)
Theorem make_scale (given : gmap string string) :
  (∀ v, given !! "CLUSTER" = Some v → plain v = true) →
  (∀ v, given !! "GROUP" = Some v → plain v = true) →
  run Make.Makefile given "scale"
  = Some [ "az aks nodepool scale --name=gpumanual --cluster-name="
           +:+ default "pangeoCluster" (given !! "CLUSTER")
           +:+ " --resource-group="
           +:+ default "esip2021" (given !! "GROUP")
           +:+ " --node-count=NODE_COUNT" ].
Proof.
  intros Hcluster Hgroup. unfold run.
  assert (List.find (λ r, bool_decide (Make.target r = "scale"))
                    (Make.rules Make.Makefile)
          = Some (Make.mkRule "scale" []
                    [ "az aks nodepool scale --name=gpumanual "
                      +:+ "--cluster-name=$(CLUSTER) "
                      +:+ "--resource-group=$(GROUP) "
                      +:+ "--node-count=NODE_COUNT" ])) as ->
      by (vm_compute; reflexivity).
  change (depth_of Make.Makefile) with 10%nat.
  cbn [fmap option_fmap option_map list_fmap Make.recipe].
  change (expand 10 ?val ?s)
    with (scan (λ n, expand 9 val (val n)) None s).
  match goal with
  | |- Some [scan ?f None _] = _ =>
      etrans; [exact (f_equal (λ x, Some [x]) (scan_scale f)) |]
  end.
  cbv beta. rewrite value_CLUSTER, value_GROUP.
  rewrite !expand_plain; [done | |].
  - destruct (given !! "GROUP") as [v |] eqn:E; [by apply Hgroup | done].
  - destruct (given !! "CLUSTER") as [v |] eqn:E; [by apply Hcluster | done].
Qed.

Lemma append_empty (s : string) : s +:+ EmptyString = s.
Proof.
  induction s as [| c s IH]; [done |].
  change (String c (s +:+ EmptyString) = String c s). by rewrite IH.
Qed.

Lemma values_storage (given : gmap string string) :
  value Make.Makefile given "LOCATION"
  = default "westeurope" (given !! "LOCATION")
  ∧ value Make.Makefile given "STORAGE_ACCOUNT"
    = default "$(GROUP)" (given !! "STORAGE_ACCOUNT")
  ∧ value Make.Makefile given "STORAGE_CONTAINER"
    = default "$(GROUP)" (given !! "STORAGE_CONTAINER").
Proof.
  split; [reflexivity |]. split; reflexivity.
Qed.

Lemma expand_GROUP (depth : nat) (given : gmap string string) :
  (∀ v, given !! "GROUP" = Some v → plain v = true) →
  expand depth (value Make.Makefile given)
         (value Make.Makefile given "GROUP")
  = default "esip2021" (given !! "GROUP").
Proof.
  intros Hgroup. rewrite value_GROUP, expand_plain; [done |].
  destruct (given !! "GROUP") as [v |] eqn:E; [by apply Hgroup | done].
Qed.

(** A variable whose default is [$(GROUP)] expands to its own value when
    the environment sets it, and to the resource group's name otherwise. *)
Lemma expand_group_default (depth : nat) (given : gmap string string)
    (name : string) :
  (∀ v, given !! "GROUP" = Some v → plain v = true) →
  (∀ v, given !! name = Some v → plain v = true) →
  expand (S depth) (value Make.Makefile given)
         (default "$(GROUP)" (given !! name))
  = default (default "esip2021" (given !! "GROUP")) (given !! name).
Proof.
  intros Hgroup Hname. destruct (given !! name) as [v |] eqn:E.
  - apply expand_plain. by apply Hname.
  - cbn [default].
    change (expand (S depth) ?val "$(GROUP)")
      with (expand depth val (val "GROUP") +:+ EmptyString).
    by rewrite append_empty, expand_GROUP.
Qed.

Lemma scan_storage_account (f : string → string) :
  scan f None
    ("az storage account create --name=$(STORAGE_ACCOUNT) "
     +:+ "--resource-group=$(GROUP) --location=$(LOCATION)")
  = "az storage account create --name=" +:+ f "STORAGE_ACCOUNT"
    +:+ " --resource-group=" +:+ f "GROUP"
    +:+ " --location=" +:+ f "LOCATION" +:+ EmptyString.
Proof. vm_compute. reflexivity. Qed.

Lemma scan_storage_container (f : string → string) :
  scan f None
    ("az storage container create --name=esip2021 "
     +:+ "--account-name=$(STORAGE_CONTAINER) --public-access blob")
  = "az storage container create --name=esip2021 --account-name="
    +:+ f "STORAGE_CONTAINER" +:+ " --public-access blob".
Proof. vm_compute. reflexivity. Qed.

(** X22: [make storage] creates the storage account named by
    [STORAGE_ACCOUNT] and then a container, always called [esip2021], in
    the account named by [STORAGE_CONTAINER]; each of the two names is the
    resource group's unless the environment sets it, so the second command
    addresses the account of the first when neither or both are set to
    the same name. *)
Theorem make_storage (given : gmap string string) :
  (∀ name v, name ∈ ["GROUP"; "LOCATION"; "STORAGE_ACCOUNT";
                     "STORAGE_CONTAINER"] →
             given !! name = Some v → plain v = true) →
  let group := default "esip2021" (given !! "GROUP") in
  run Make.Makefile given "storage"
  = Some [ "az storage account create --name="
           +:+ default group (given !! "STORAGE_ACCOUNT")
           +:+ " --resource-group=" +:+ group
           +:+ " --location="
           +:+ default "westeurope" (given !! "LOCATION");
           "az storage container create --name=esip2021 --account-name="
           +:+ default group (given !! "STORAGE_CONTAINER")
           +:+ " --public-access blob" ].
Proof.
  intros Hplain group. unfold run.
  assert (∀ name, name ∈ ["GROUP"; "LOCATION"; "STORAGE_ACCOUNT";
                          "STORAGE_CONTAINER"] →
                  ∀ v, given !! name = Some v → plain v = true) as Hname
      by (intros name Hin v; by apply Hplain).
  assert (List.find (λ r, bool_decide (Make.target r = "storage"))
                    (Make.rules Make.Makefile)
          = Some (Make.mkRule "storage" []
                    [ "az storage account create "
                      +:+ "--name=$(STORAGE_ACCOUNT) "
                      +:+ "--resource-group=$(GROUP) "
                      +:+ "--location=$(LOCATION)";
                      "az storage container create --name=esip2021 "
                      +:+ "--account-name=$(STORAGE_CONTAINER) "
                      +:+ "--public-access blob" ])) as ->
      by (vm_compute; reflexivity).
  change (depth_of Make.Makefile) with 10%nat.
  cbn [fmap option_fmap option_map list_fmap Make.recipe].
  change (expand 10 ?val ?s)
    with (scan (λ n, expand 9 val (val n)) None s).
  destruct (values_storage given) as (Hlocation & Haccount & Hcontainer).
  f_equal. f_equal; [| f_equal].
  - match goal with
    | |- scan ?f None _ = _ => etrans; [exact (scan_storage_account f) |]
    end.
    cbv beta. rewrite append_empty, Hlocation, Haccount.
    rewrite expand_group_default, expand_GROUP, expand_plain;
      [done | | | |].
    + destruct (given !! "LOCATION") as [v |] eqn:E; [| done].
      apply (Hname "LOCATION"); [set_solver | done].
    + apply Hname. set_solver.
    + apply Hname. set_solver.
    + apply Hname. set_solver.
  - match goal with
    | |- scan ?f None _ = _ => etrans; [exact (scan_storage_container f) |]
    end.
    cbv beta. rewrite Hcontainer, expand_group_default; [done | |].
    + apply Hname. set_solver.
    + apply Hname. set_solver.
Qed.

(** X23: [make hub] reads no variable: whatever the environment sets, it
    runs the same [helm upgrade] of the [dask/daskhub] chart at version
    2021.7.0 with [config.yaml] and [secrets.yaml]. *)
Theorem make_hub (given : gmap string string) :
  run Make.Makefile given "hub"
  = Some [ "helm upgrade --wait --install --create-namespace "
           +:+ "dask dask/daskhub --version=2021.7.0 --namespace=dhub "
           +:+ "--values=config.yaml --values=secrets.yaml" ].
Proof.
  unfold run.
  assert (List.find (λ r, bool_decide (Make.target r = "hub"))
                    (Make.rules Make.Makefile)
          = Some (Make.mkRule "hub" []
                    [ "helm upgrade --wait --install --create-namespace "
                      +:+ "dask dask/daskhub --version=2021.7.0 "
                      +:+ "--namespace=dhub "
                      +:+ "--values=config.yaml --values=secrets.yaml" ]))
    as -> by (vm_compute; reflexivity).
  cbn [fmap option_fmap option_map list_fmap Make.recipe].
  by rewrite expand_plain.
Qed.

(** X21: the README's first step, [make resource-group], has no rule in
    the Makefile, whatever the environment; its other steps ([cluster],
    [hub], [userpools], [scale]) have one. *)
Theorem readme_steps :
  (∀ given, run Make.Makefile given "resource-group" = None)
  ∧ (λ s, (Readme.goal s,
           bool_decide (is_Some (run Make.Makefile
                                     (list_to_map (Readme.environment s))
                                     (Readme.goal s)))))
      <$> Readme.deployment
    = [ ("resource-group", false); ("cluster", true); ("hub", true);
        ("userpools", true); ("scale", true) ].
Proof.
  split; [| vm_compute; reflexivity].
  intros given. unfold run.
  assert (List.find (λ r, bool_decide (Make.target r = "resource-group"))
                    (Make.rules Make.Makefile) = None) as ->
      by (vm_compute; reflexivity).
  done.
Qed.

End MakeRunProofs.

Lemma make_scale_witness :
  let given : gmap string string := {[ "NODE_COUNT" := "1" ]} in
  (∀ v, given !! "CLUSTER" = Some v → MakeRun.plain v = true)
  ∧ (∀ v, given !! "GROUP" = Some v → MakeRun.plain v = true)
  ∧ MakeRun.run Make.Makefile given "scale"
    = Some [ "az aks nodepool scale --name=gpumanual --cluster-name="
             +:+ default "pangeoCluster" (given !! "CLUSTER")
             +:+ " --resource-group="
             +:+ default "esip2021" (given !! "GROUP")
             +:+ " --node-count=NODE_COUNT" ].
Proof.
  intros given.
  assert (∀ v, given !! "CLUSTER" = Some v → MakeRun.plain v = true) as Hc
      by (intros v; vm_compute; discriminate).
  assert (∀ v, given !! "GROUP" = Some v → MakeRun.plain v = true) as Hg
      by (intros v; vm_compute; discriminate).
  split; [exact Hc |]. split; [exact Hg |].
  exact (make_scale given Hc Hg).
Defined.

Example make_scale_readme :
  MakeRun.run Make.Makefile {[ "NODE_COUNT" := "1" ]} "scale"
  = Some [ "az aks nodepool scale --name=gpumanual "
           +:+ "--cluster-name=pangeoCluster --resource-group=esip2021 "
           +:+ "--node-count=NODE_COUNT" ].
Proof. vm_compute. reflexivity. Qed.

Lemma make_storage_witness :
  let given : gmap string string :=
    {[ "GROUP" := "workshop"; "STORAGE_ACCOUNT" := "images" ]} in
  (∀ name v, name ∈ ["GROUP"; "LOCATION"; "STORAGE_ACCOUNT";
                     "STORAGE_CONTAINER"] →
             given !! name = Some v → MakeRun.plain v = true)
  ∧ MakeRun.run Make.Makefile given "storage"
    = Some [ "az storage account create --name=images"
             +:+ " --resource-group=workshop --location=westeurope";
             "az storage container create --name=esip2021"
             +:+ " --account-name=workshop --public-access blob" ].
Proof.
  intros given.
  assert (∀ name v, name ∈ ["GROUP"; "LOCATION"; "STORAGE_ACCOUNT";
                            "STORAGE_CONTAINER"] →
                    given !! name = Some v → MakeRun.plain v = true) as H.
  { intros name v Hin. repeat (apply elem_of_cons in Hin as [-> | Hin]);
      [| | | | by apply elem_of_nil in Hin];
      vm_compute; intros [= <-]; reflexivity || discriminate. }
  split; [exact H |]. exact (make_storage given H).
Defined.
